(** * Model train controller (ATmega1284P): the motion state machine

    A shallow embedding of the Arduino sketch: the sensor queries
    [check_slow], [check_center_slow], [check_stop], the schedule gate
    [check_schedule] and [depart_time], the configuration defaults
    [initEeprom] / [setup], and one iteration of [loop] (menu key, the
    [switch (program_state)] block, the motor output).

    Conventions.
    - [int] is the 16-bit integer of avr-gcc, [unsigned long] has 32 bits;
      both are held in [Z] with the wrap-around written out where the
      source computes with them.
    - [motor_speed] is a [float] that only ever receives the integer
      constants of the sketch, [+ 0.25] and [- 1]; it is held in [Z] in
      units of 0.25 (a quarter), which is exact for such values.
    - The OLED display and the serial console are outputs only and are
      left out; [displayMillis] is kept because the sketch assigns it. *)

From stdpp Require Import base numbers list gmap.
From Stdlib Require Import ZArith Lia Bool.

Local Open Scope Z_scope.

(** ** Constants of the sketch *)

Definition EE_MAGIC_NUMBER : Z := 0xBBDC.
Definition EE_MAGIC_ADDRESS : Z := 2048.
Definition eeprom_addr : Z := 0.
Definition eeprom_addr2 : Z := 128.
Definition NUM_STOPS : Z := 3.

Definition ACCEL_TICK_TIME : Z := 150000.
Definition WAIT_PAUSE_TIMER : Z := 5000.
Definition SLOW_MAX_TIMER : Z := 15000.
Definition RUN_MAX_TIMER : Z := 30000.

Definition STATE_SLEEPING : Z := 0.
Definition STATE_STARTUP : Z := 1.
Definition STATE_WAITING : Z := 2.
Definition STATE_ACCEL : Z := 3.
Definition STATE_RUNNING : Z := 4.
Definition STATE_DEACCEL : Z := 5.
Definition STATE_SLOW : Z := 6.
Definition STATE_STOPPED : Z := 7.

Definition L_STOP_PIN : Z := 24.
Definition L_SLOW_PIN : Z := 25.
Definition C_L_SLOW_PIN : Z := 26.
Definition C_STOP_PIN : Z := 27.
Definition C_R_SLOW_PIN : Z := 28.
Definition R_SLOW_PIN : Z := 29.
Definition R_STOP_PIN : Z := 30.

Definition MOTOR_LEFT_PIN : Z := 13.
Definition MOTOR_RIGHT_PIN : Z := 14.

Definition START_SPEED : Z := 10.
Definition MIN_SPEED : Z := 15.
Definition MAX_SPEED : Z := 41.
Definition IDLE_SPEED : Z := 8.

(** ** Machine arithmetic *)

(** A 16-bit [int] result, two's complement. *)
Definition wrap16 (z : Z) : Z := (z + 32768) mod 65536 - 32768.

(** A 32-bit [unsigned long] result. *)
Definition wrap32 (z : Z) : Z := z mod 4294967296.

(** The value fits an [int], so the C arithmetic that produced it did not
    overflow. *)
Definition fits_int (z : Z) : Prop := -32768 <= z <= 32767.

(** [float] speeds, in quarters. *)
Definition speed_of_int (n : Z) : Z := 4 * n.

(** Conversion of a [float] speed to [int]: truncation toward zero. *)
Definition int_of_speed (q : Z) : Z := Z.quot q 4.

(** Integral promotion of a [bool], [~] on [int], and conversion back. *)
Definition int_of_bool (b : bool) : Z := if b then 1 else 0.
Definition bool_of_int (z : Z) : bool := negb (z =? 0).
Definition bitwise_not (z : Z) : Z := Z.lnot z.

(** ** Sensor lines

    A snapshot gives the level of every pin: [true] is HIGH.  The hall
    sensors are active low, so a covered sensor reads [false]. *)

Definition Pins : Type := Z -> bool.

Definition digitalRead (p : Pins) (pin : Z) : bool := p pin.

Definition check_slow (p : Pins) : Z :=
  if negb (digitalRead p L_SLOW_PIN) then 0
  else if negb (digitalRead p C_L_SLOW_PIN) || negb (digitalRead p C_R_SLOW_PIN) then 1
  else if negb (digitalRead p R_SLOW_PIN) then 2
  else -1.

Definition check_center_slow (p : Pins) : Z :=
  if negb (digitalRead p C_L_SLOW_PIN) then 0
  else if negb (digitalRead p C_R_SLOW_PIN) then 2
  else -1.

Definition check_stop (p : Pins) : Z :=
  if negb (digitalRead p L_STOP_PIN) then 0
  else if negb (digitalRead p C_STOP_PIN) then 1
  else if negb (digitalRead p R_STOP_PIN) then 2
  else -1.

(** The seven sensor lines, and how many of them are asserted. *)
Definition sensor_pins : list Z :=
  [L_STOP_PIN; L_SLOW_PIN; C_L_SLOW_PIN; C_STOP_PIN; C_R_SLOW_PIN; R_SLOW_PIN; R_STOP_PIN].

Definition asserted (p : Pins) (pin : Z) : bool := negb (digitalRead p pin).

Definition count_asserted (p : Pins) : nat :=
  length (filter (fun pin => asserted p pin = true) sensor_pins).

(** The sensor-to-station mapping of the track layout. *)
Definition stop_pins_of (station : Z) : list Z :=
  if station =? 0 then [L_STOP_PIN]
  else if station =? 1 then [C_STOP_PIN]
  else if station =? 2 then [R_STOP_PIN]
  else [].

Definition slow_pins_of (station : Z) : list Z :=
  if station =? 0 then [L_SLOW_PIN]
  else if station =? 1 then [C_L_SLOW_PIN; C_R_SLOW_PIN]
  else if station =? 2 then [R_SLOW_PIN]
  else [].

Definition stop_asserted (p : Pins) (station : Z) : bool :=
  existsb (asserted p) (stop_pins_of station).

Definition slow_asserted (p : Pins) (station : Z) : bool :=
  existsb (asserted p) (slow_pins_of station).

(** A snapshot with all lines HIGH, and one with the listed lines LOW. *)
Definition no_sensor : Pins := fun _ => true.

Definition pins_low (low : list Z) : Pins :=
  fun pin => negb (existsb (Z.eqb pin) low).

(** ** The clock and the schedule gate *)

Record Clock := mkClock { c_hour : Z; c_minute : Z; c_second : Z }.

(** [a[i]] on an [int] array. *)
Definition aget (a : list Z) (i : nat) : Z := a !!! i.

Definition check_schedule (on_off_times : list Z) (clk : Clock) : bool :=
  if aget on_off_times 4 =? 0 then true
  else
    let now_minutes := wrap16 (wrap16 (c_hour clk * 60) + c_minute clk) in
    let on_minutes := wrap16 (wrap16 (aget on_off_times 0 * 60) + aget on_off_times 1) in
    let off_minutes := wrap16 (wrap16 (aget on_off_times 2 * 60) + aget on_off_times 3) in
    if (now_minutes >=? on_minutes) && (now_minutes <? off_minutes) then true else false.

Definition depart_time (clk : Clock) : bool :=
  if ((c_minute clk =? 15) || (c_minute clk =? 30) || (c_minute clk =? 45) || (c_minute clk =? 0))
     && (c_second clk =? 0)
  then true else false.

(** ** The persistent store

    [EEPROM.put] / [EEPROM.get] move whole objects; the three objects of
    the sketch live at addresses that do not overlap (0, 128 and 2048), so
    the store is a finite map from the address of an object to the object.
    An erased cell reads as all ones. *)

Inductive EeObj : Type :=
| EeWord (w : Z)
| EeInts (a : list Z).

Definition ee_get_word (ee : gmap Z EeObj) (addr : Z) : Z :=
  match ee !! addr with
  | Some (EeWord w) => w
  | _ => 0xFFFF
  end.

Definition ee_get_ints (ee : gmap Z EeObj) (addr : Z) (n : nat) : list Z :=
  match ee !! addr with
  | Some (EeInts a) => a
  | _ => replicate n (-1)
  end.

(** ** The global variables of the sketch *)

Record Ctrl : Type := mkCtrl {
  program_state : Z;
  is_startup : bool;
  is_running : bool;
  motor_speed : Z;            (* float, in quarters *)
  prev_motor_speed : Z;       (* int *)
  direction_left : bool;
  temp_station : Z;
  current_station : Z;
  check_result : Z;
  previousMillis : Z;
  displayMillis : Z;
  runMillis : Z;
  deaccel_tick_time : Z;
  station_wait_times : list Z;
  on_off_times : list Z;
  magicNumber : Z;
  eeprom : gmap Z EeObj;
  pwm_left : Z;               (* duty last written to MOTOR_LEFT_PIN *)
  pwm_right : Z               (* duty last written to MOTOR_RIGHT_PIN *)
}.

Definition set_program_state (v : Z) (s : Ctrl) : Ctrl :=
  let 'mkCtrl _ a2 a3 a4 a5 a6 a7 a8 a9 a10 a11 a12 a13 a14 a15 a16 a17 a18 a19 := s in
  mkCtrl v a2 a3 a4 a5 a6 a7 a8 a9 a10 a11 a12 a13 a14 a15 a16 a17 a18 a19.
Definition set_is_startup (v : bool) (s : Ctrl) : Ctrl :=
  let 'mkCtrl a1 _ a3 a4 a5 a6 a7 a8 a9 a10 a11 a12 a13 a14 a15 a16 a17 a18 a19 := s in
  mkCtrl a1 v a3 a4 a5 a6 a7 a8 a9 a10 a11 a12 a13 a14 a15 a16 a17 a18 a19.
Definition set_is_running (v : bool) (s : Ctrl) : Ctrl :=
  let 'mkCtrl a1 a2 _ a4 a5 a6 a7 a8 a9 a10 a11 a12 a13 a14 a15 a16 a17 a18 a19 := s in
  mkCtrl a1 a2 v a4 a5 a6 a7 a8 a9 a10 a11 a12 a13 a14 a15 a16 a17 a18 a19.
Definition set_motor_speed (v : Z) (s : Ctrl) : Ctrl :=
  let 'mkCtrl a1 a2 a3 _ a5 a6 a7 a8 a9 a10 a11 a12 a13 a14 a15 a16 a17 a18 a19 := s in
  mkCtrl a1 a2 a3 v a5 a6 a7 a8 a9 a10 a11 a12 a13 a14 a15 a16 a17 a18 a19.
Definition set_prev_motor_speed (v : Z) (s : Ctrl) : Ctrl :=
  let 'mkCtrl a1 a2 a3 a4 _ a6 a7 a8 a9 a10 a11 a12 a13 a14 a15 a16 a17 a18 a19 := s in
  mkCtrl a1 a2 a3 a4 v a6 a7 a8 a9 a10 a11 a12 a13 a14 a15 a16 a17 a18 a19.
Definition set_direction_left (v : bool) (s : Ctrl) : Ctrl :=
  let 'mkCtrl a1 a2 a3 a4 a5 _ a7 a8 a9 a10 a11 a12 a13 a14 a15 a16 a17 a18 a19 := s in
  mkCtrl a1 a2 a3 a4 a5 v a7 a8 a9 a10 a11 a12 a13 a14 a15 a16 a17 a18 a19.
Definition set_temp_station (v : Z) (s : Ctrl) : Ctrl :=
  let 'mkCtrl a1 a2 a3 a4 a5 a6 _ a8 a9 a10 a11 a12 a13 a14 a15 a16 a17 a18 a19 := s in
  mkCtrl a1 a2 a3 a4 a5 a6 v a8 a9 a10 a11 a12 a13 a14 a15 a16 a17 a18 a19.
Definition set_current_station (v : Z) (s : Ctrl) : Ctrl :=
  let 'mkCtrl a1 a2 a3 a4 a5 a6 a7 _ a9 a10 a11 a12 a13 a14 a15 a16 a17 a18 a19 := s in
  mkCtrl a1 a2 a3 a4 a5 a6 a7 v a9 a10 a11 a12 a13 a14 a15 a16 a17 a18 a19.
Definition set_check_result (v : Z) (s : Ctrl) : Ctrl :=
  let 'mkCtrl a1 a2 a3 a4 a5 a6 a7 a8 _ a10 a11 a12 a13 a14 a15 a16 a17 a18 a19 := s in
  mkCtrl a1 a2 a3 a4 a5 a6 a7 a8 v a10 a11 a12 a13 a14 a15 a16 a17 a18 a19.
Definition set_previousMillis (v : Z) (s : Ctrl) : Ctrl :=
  let 'mkCtrl a1 a2 a3 a4 a5 a6 a7 a8 a9 _ a11 a12 a13 a14 a15 a16 a17 a18 a19 := s in
  mkCtrl a1 a2 a3 a4 a5 a6 a7 a8 a9 v a11 a12 a13 a14 a15 a16 a17 a18 a19.
Definition set_displayMillis (v : Z) (s : Ctrl) : Ctrl :=
  let 'mkCtrl a1 a2 a3 a4 a5 a6 a7 a8 a9 a10 _ a12 a13 a14 a15 a16 a17 a18 a19 := s in
  mkCtrl a1 a2 a3 a4 a5 a6 a7 a8 a9 a10 v a12 a13 a14 a15 a16 a17 a18 a19.
Definition set_runMillis (v : Z) (s : Ctrl) : Ctrl :=
  let 'mkCtrl a1 a2 a3 a4 a5 a6 a7 a8 a9 a10 a11 _ a13 a14 a15 a16 a17 a18 a19 := s in
  mkCtrl a1 a2 a3 a4 a5 a6 a7 a8 a9 a10 a11 v a13 a14 a15 a16 a17 a18 a19.
Definition set_deaccel_tick_time (v : Z) (s : Ctrl) : Ctrl :=
  let 'mkCtrl a1 a2 a3 a4 a5 a6 a7 a8 a9 a10 a11 a12 _ a14 a15 a16 a17 a18 a19 := s in
  mkCtrl a1 a2 a3 a4 a5 a6 a7 a8 a9 a10 a11 a12 v a14 a15 a16 a17 a18 a19.
Definition set_station_wait_times (v : list Z) (s : Ctrl) : Ctrl :=
  let 'mkCtrl a1 a2 a3 a4 a5 a6 a7 a8 a9 a10 a11 a12 a13 _ a15 a16 a17 a18 a19 := s in
  mkCtrl a1 a2 a3 a4 a5 a6 a7 a8 a9 a10 a11 a12 a13 v a15 a16 a17 a18 a19.
Definition set_on_off_times (v : list Z) (s : Ctrl) : Ctrl :=
  let 'mkCtrl a1 a2 a3 a4 a5 a6 a7 a8 a9 a10 a11 a12 a13 a14 _ a16 a17 a18 a19 := s in
  mkCtrl a1 a2 a3 a4 a5 a6 a7 a8 a9 a10 a11 a12 a13 a14 v a16 a17 a18 a19.
Definition set_magicNumber (v : Z) (s : Ctrl) : Ctrl :=
  let 'mkCtrl a1 a2 a3 a4 a5 a6 a7 a8 a9 a10 a11 a12 a13 a14 a15 _ a17 a18 a19 := s in
  mkCtrl a1 a2 a3 a4 a5 a6 a7 a8 a9 a10 a11 a12 a13 a14 a15 v a17 a18 a19.
Definition set_eeprom (v : gmap Z EeObj) (s : Ctrl) : Ctrl :=
  let 'mkCtrl a1 a2 a3 a4 a5 a6 a7 a8 a9 a10 a11 a12 a13 a14 a15 a16 _ a18 a19 := s in
  mkCtrl a1 a2 a3 a4 a5 a6 a7 a8 a9 a10 a11 a12 a13 a14 a15 a16 v a18 a19.
Definition set_pwm_left (v : Z) (s : Ctrl) : Ctrl :=
  let 'mkCtrl a1 a2 a3 a4 a5 a6 a7 a8 a9 a10 a11 a12 a13 a14 a15 a16 a17 _ a19 := s in
  mkCtrl a1 a2 a3 a4 a5 a6 a7 a8 a9 a10 a11 a12 a13 a14 a15 a16 a17 v a19.
Definition set_pwm_right (v : Z) (s : Ctrl) : Ctrl :=
  let 'mkCtrl a1 a2 a3 a4 a5 a6 a7 a8 a9 a10 a11 a12 a13 a14 a15 a16 a17 a18 _ := s in
  mkCtrl a1 a2 a3 a4 a5 a6 a7 a8 a9 a10 a11 a12 a13 a14 a15 a16 a17 a18 v.

(** [current_station = temp_station = v]. *)
Definition set_station (v : Z) (s : Ctrl) : Ctrl :=
  set_current_station v (set_temp_station v s).

(** [EEPROM.put(addr, obj)]. *)
Definition ee_put (addr : Z) (o : EeObj) (s : Ctrl) : Ctrl :=
  set_eeprom (<[addr := o]> (eeprom s)) s.

(** [a[i] = v] on an [int] array, for an index inside the array. *)
Definition aset (a : list Z) (i : nat) (v : Z) : list Z := <[i := v]> a.

(** The variables as the C++ runtime initialises them before [setup]. *)
Definition power_on (ee : gmap Z EeObj) : Ctrl :=
  {| program_state := 1;
     is_startup := true;
     is_running := true;
     motor_speed := speed_of_int 0;
     prev_motor_speed := 0;
     direction_left := false;
     temp_station := 0;
     current_station := 3;
     check_result := 9;
     previousMillis := 0;
     displayMillis := 0;
     runMillis := 0;
     deaccel_tick_time := 1000;
     station_wait_times := replicate (Z.to_nat NUM_STOPS) 0;
     on_off_times := replicate 5 0;
     magicNumber := 0;
     eeprom := ee;
     pwm_left := 0;
     pwm_right := 0 |}.

(** ** [initEeprom] and the configuration part of [setup] *)

(** The [for] loop of [initEeprom], from [slot] up to the bound
    [NUM_STOPS - 1]; [fuel] bounds the number of passes and is never the
    reason the loop ends when it starts at [NUM_STOPS]. *)
Fixpoint init_slots (fuel : nat) (slot : Z) (swt : list Z) : list Z :=
  match fuel with
  | O => swt
  | S fuel' =>
      if slot <? NUM_STOPS - 1 then
        let swt' :=
          if bool_of_int (Z.lor (int_of_bool (slot =? 0))
                                (int_of_bool (slot =? NUM_STOPS - 1)))
          then aset swt (Z.to_nat slot) 10
          else aset swt (Z.to_nat slot) 10 in
        init_slots fuel' (slot + 1) swt'
      else swt
  end.

Definition initEeprom (s : Ctrl) : Ctrl :=
  let s := ee_put EE_MAGIC_ADDRESS (EeWord EE_MAGIC_NUMBER) s in
  let s := set_station_wait_times
             (init_slots (Z.to_nat NUM_STOPS) 0 (station_wait_times s)) s in
  let s := ee_put eeprom_addr (EeInts (station_wait_times s)) s in
  let s := set_on_off_times (aset (on_off_times s) 0 6) s in
  let s := set_on_off_times (aset (on_off_times s) 1 0) s in
  let s := set_on_off_times (aset (on_off_times s) 2 22) s in
  let s := set_on_off_times (aset (on_off_times s) 3 0) s in
  let s := set_on_off_times (aset (on_off_times s) 4 1) s in
  ee_put eeprom_addr2 (EeInts (on_off_times s)) s.

Definition setup (now : Z) (s : Ctrl) : Ctrl :=
  let s := set_displayMillis now s in
  let s := set_magicNumber (ee_get_word (eeprom s) EE_MAGIC_ADDRESS) s in
  if negb (magicNumber s =? EE_MAGIC_NUMBER) then initEeprom s
  else
    let s := set_station_wait_times
               (ee_get_ints (eeprom s) eeprom_addr (Z.to_nat NUM_STOPS)) s in
    set_on_off_times (ee_get_ints (eeprom s) eeprom_addr2 5) s.

(** ** What one iteration of [loop] reads from the outside *)

(** The key waiting on the serial console.  The editors behind the keys
    '1' and '3' are interactive; they are represented by the values they
    end up assigning. *)
Inductive MenuKey : Type :=
| KeyNone                                   (* nothing available *)
| KeyEditStations (edits : list (Z * Z))    (* '1': entered (slot, wait time) *)
| KeySetOnOff (v0 v1 v2 v3 : Z) (en : bool) (* '3': the entered values *)
| KeyLeaveNow                               (* '7' *)
| KeyOther.                                 (* any other character *)

Record Env : Type := mkEnv {
  key : MenuKey;
  pins : Pins;                (* the sensor lines during this iteration *)
  resample : nat -> Pins;     (* the lines at each pass of the recovery loop *)
  millis : Z;
  micros : Z;
  clock : Clock
}.

(** [editStations]: a slot is accepted inside the array, a wait time when
    it is not negative; the array is written back on exit. *)
Fixpoint apply_edits (edits : list (Z * Z)) (swt : list Z) : list Z :=
  match edits with
  | [] => swt
  | (slot, stopTime) :: rest =>
      if (slot >=? 0) && (slot <? NUM_STOPS) && (stopTime >=? 0)
      then apply_edits rest (aset swt (Z.to_nat slot) stopTime)
      else apply_edits rest swt
  end.

Definition editStations (edits : list (Z * Z)) (s : Ctrl) : Ctrl :=
  let s := set_station_wait_times (apply_edits edits (station_wait_times s)) s in
  ee_put eeprom_addr (EeInts (station_wait_times s)) s.

(** [setOnOffTime]: the four times are taken as entered; the enable flag
    is asked for again until it is 0 or 1. *)
Definition setOnOffTime (v0 v1 v2 v3 : Z) (en : bool) (s : Ctrl) : Ctrl :=
  let s := set_on_off_times [v0; v1; v2; v3; int_of_bool en] s in
  ee_put eeprom_addr2 (EeInts (on_off_times s)) s.

Definition menu (k : MenuKey) (s : Ctrl) : Ctrl :=
  match k with
  | KeyNone => s
  | KeyEditStations edits => editStations edits s
  | KeySetOnOff v0 v1 v2 v3 en => setOnOffTime v0 v1 v2 v3 en s
  | KeyLeaveNow =>
      set_program_state STATE_ACCEL (set_motor_speed (speed_of_int START_SPEED) s)
  | KeyOther => s
  end.

(** ** The cases of [switch (program_state)] *)

(** [millis() - t] and [micros() - t] in [unsigned long]. *)
Definition elapsed (now t : Z) : Z := wrap32 (now - t).

Definition case_sleeping (e : Env) (s : Ctrl) : Ctrl :=
  let s := set_is_running (check_schedule (on_off_times s) (clock e)) s in
  if is_running s then
    set_program_state STATE_STARTUP (set_displayMillis (millis e) s)
  else s.

(** The first look at the stop sensors in [STATE_STARTUP]. *)
Definition startup_first (e : Env) (s : Ctrl) : Ctrl :=
  let s := set_is_startup false s in
  let s := set_temp_station (check_stop (pins e)) s in
  let s := set_current_station (temp_station s) s in
  let s :=
    if current_station s =? 0 then
      set_program_state STATE_ACCEL
        (set_direction_left true (set_current_station 0 s))
    else s in
  let s :=
    if current_station s >=? 1 then
      set_program_state STATE_ACCEL
        (set_motor_speed (speed_of_int MIN_SPEED) (set_direction_left false s))
    else s in
  if current_station s =? -1 then set_displayMillis (millis e) s else s.

(** One pass through the body of [while (current_station == -1)]. *)
Definition recovery_body (p : Pins) (s : Ctrl) : Ctrl :=
  let s := set_temp_station (check_stop p) s in
  let s := set_current_station (temp_station s) s in
  let s :=
    if current_station s =? 0 then
      set_program_state STATE_ACCEL
        (set_direction_left false (set_current_station 0 s))
    else s in
  if current_station s >=? 1 then
    set_program_state STATE_ACCEL
      (set_motor_speed (speed_of_int MIN_SPEED) (set_direction_left true s))
  else s.

(** The recovery loop: pass [k] reads [samples k].  [None] means that the
    loop is still running when the fuel is used up. *)
Fixpoint recovery_loop (fuel : nat) (samples : nat -> Pins) (k : nat) (s : Ctrl)
  : option Ctrl :=
  if current_station s =? -1 then
    match fuel with
    | O => None
    | S fuel' => recovery_loop fuel' samples (S k) (recovery_body (samples k) s)
    end
  else Some s.

(** The variables after [n] passes of the recovery loop, for as long as
    its condition holds. *)
Fixpoint recovery_trace (n : nat) (samples : nat -> Pins) (k : nat) (s : Ctrl) : Ctrl :=
  match n with
  | O => s
  | S n' =>
      if current_station s =? -1
      then recovery_trace n' samples (S k) (recovery_body (samples k) s)
      else s
  end.

Definition startup_exit (e : Env) (s : Ctrl) : Ctrl :=
  set_displayMillis (millis e)
    (set_previousMillis (millis e) (set_program_state STATE_ACCEL s)).

Definition case_startup (fuel : nat) (e : Env) (s : Ctrl) : option Ctrl :=
  match recovery_loop fuel (resample e) 0 (startup_first e s) with
  | Some s' => Some (startup_exit e s')
  | None => None
  end.

Definition case_waiting (e : Env) (s : Ctrl) : Ctrl :=
  let s :=
    if current_station s =? 1 then set_motor_speed (speed_of_int IDLE_SPEED) s
    else set_motor_speed (speed_of_int IDLE_SPEED) s in
  let s :=
    if negb (current_station s =? 1)
       && (elapsed (millis e) (previousMillis s) >? WAIT_PAUSE_TIMER)
    then set_motor_speed (speed_of_int 0) s else s in
  let s := set_is_running (check_schedule (on_off_times s) (clock e)) s in
  if negb (is_running s) then
    set_program_state STATE_SLEEPING (set_motor_speed (speed_of_int 0) s)
  else if ((current_station s =? 1)
           && (elapsed (millis e) (previousMillis s)
               >? wrap32 (aget (station_wait_times s) (Z.to_nat (current_station s)) * 1000)))
          || (negb (current_station s =? 1) && depart_time (clock e))
  then
    set_previousMillis (micros e)
      (set_motor_speed (speed_of_int START_SPEED)
         (set_displayMillis (millis e) (set_program_state STATE_ACCEL s)))
  else s.

(** A stop sensor was hit that is not the middle one. *)
Definition stop_hit (s : Ctrl) : bool :=
  (check_result s >? -1) && negb (check_result s =? 1).

(** The far middle slow sensor, in the direction of travel. *)
Definition center_stop_hit (s : Ctrl) : bool :=
  ((check_result s =? 0) && direction_left s)
  || ((check_result s =? 2) && negb (direction_left s)).

Definition case_accel (e : Env) (s : Ctrl) : Ctrl :=
  let s := set_check_result (check_slow (pins e)) s in
  if (check_result s >? -1) && negb (current_station s =? check_result s) then
    set_previousMillis (micros e)
      (set_displayMillis (millis e)
         (set_program_state STATE_DEACCEL (set_station (check_result s) s)))
  else
    let s := set_check_result (check_stop (pins e)) s in
    let s :=
      if stop_hit s && negb (current_station s =? check_result s) then
        set_previousMillis (micros e)
          (set_displayMillis (millis e)
             (set_program_state STATE_STOPPED (set_station (check_result s) s)))
      else s in
    if motor_speed s >=? speed_of_int MAX_SPEED then
      set_runMillis (millis e)
        (set_displayMillis (millis e) (set_program_state STATE_RUNNING s))
    else if elapsed (micros e) (previousMillis s) >=? ACCEL_TICK_TIME then
      set_displayMillis (millis e)
        (set_previousMillis (micros e) (set_motor_speed (motor_speed s + 1) s))
    else s.

(** [direction_left = ~direction_left]. *)
Definition complement_direction (s : Ctrl) : Ctrl :=
  set_direction_left (bool_of_int (bitwise_not (int_of_bool (direction_left s)))) s.

Definition case_running (e : Env) (s : Ctrl) : Ctrl :=
  if elapsed (millis e) (runMillis s) >=? RUN_MAX_TIMER then
    set_displayMillis (millis e)
      (complement_direction (set_program_state STATE_STOPPED s))
  else
    let s := set_check_result (check_slow (pins e)) s in
    let s :=
      if (check_result s >? -1) && negb (current_station s =? check_result s) then
        set_previousMillis (micros e)
          (set_displayMillis (millis e)
             (set_program_state STATE_DEACCEL (set_station (check_result s) s)))
      else s in
    let s := set_check_result (check_stop (pins e)) s in
    if stop_hit s then
      set_previousMillis (micros e)
        (set_displayMillis (millis e)
           (set_program_state STATE_STOPPED (set_current_station (check_result s) s)))
    else s.

(** The end of [STATE_DEACCEL], reached when no stop condition fired. *)
Definition deaccel_ramp (e : Env) (s : Ctrl) : Ctrl :=
  if motor_speed s <=? speed_of_int MIN_SPEED then
    set_runMillis (millis e)
      (set_displayMillis (millis e) (set_program_state STATE_SLOW s))
  else
    let s :=
      if current_station s =? 1 then set_deaccel_tick_time 19000 s
      else set_deaccel_tick_time 1 s in
    if (elapsed (micros e) (previousMillis s) >=? wrap32 (deaccel_tick_time s))
       && (motor_speed s >? speed_of_int MIN_SPEED)
    then
      set_displayMillis (millis e)
        (set_previousMillis (micros e) (set_motor_speed (motor_speed s - 4) s))
    else s.

Definition case_deaccel (e : Env) (s : Ctrl) : Ctrl :=
  let s := set_check_result (check_stop (pins e)) s in
  if stop_hit s then
    set_previousMillis (micros e)
      (set_displayMillis (millis e)
         (set_program_state STATE_STOPPED (set_station (check_result s) s)))
  else if check_result s =? 1 then
    let s := set_check_result (check_center_slow (pins e)) s in
    if center_stop_hit s then
      set_previousMillis (micros e)
        (set_displayMillis (millis e)
           (set_program_state STATE_STOPPED (set_station 1 s)))
    else deaccel_ramp e s
  else deaccel_ramp e s.

Definition case_slow (e : Env) (s : Ctrl) : Ctrl :=
  if elapsed (millis e) (runMillis s) >=? SLOW_MAX_TIMER then
    set_displayMillis (millis e)
      (complement_direction (set_program_state STATE_STOPPED s))
  else
    let s := set_check_result (check_stop (pins e)) s in
    if stop_hit s then
      set_displayMillis (millis e)
        (set_program_state STATE_STOPPED (set_station (check_result s) s))
    else if current_station s =? 1 then
      let s := set_check_result (check_center_slow (pins e)) s in
      if center_stop_hit s then
        set_previousMillis (micros e)
          (set_displayMillis (millis e)
             (set_program_state STATE_STOPPED (set_station 1 s)))
      else s
    else s.

Definition case_stopped (e : Env) (s : Ctrl) : Ctrl :=
  let s :=
    if current_station s =? 1 then set_motor_speed (speed_of_int IDLE_SPEED) s
    else set_motor_speed (speed_of_int IDLE_SPEED) s in
  let s := if current_station s =? 2 then set_direction_left true s else s in
  let to_waiting (s : Ctrl) :=
    set_previousMillis (millis e)
      (set_displayMillis (millis e) (set_program_state STATE_WAITING s)) in
  if current_station s =? 0 then
    let s := set_direction_left false s in
    let s := set_is_running (check_schedule (on_off_times s) (clock e)) s in
    if negb (is_running s) then
      set_previousMillis (millis e)
        (set_displayMillis (millis e) (set_program_state STATE_SLEEPING s))
    else to_waiting s
  else to_waiting s.

(** The whole [switch]; [None] only while the recovery loop of
    [STATE_STARTUP] has not ended. *)
Definition state_machine (fuel : nat) (e : Env) (s : Ctrl) : option Ctrl :=
  if program_state s =? STATE_SLEEPING then Some (case_sleeping e s)
  else if program_state s =? STATE_STARTUP then case_startup fuel e s
  else if program_state s =? STATE_WAITING then Some (case_waiting e s)
  else if program_state s =? STATE_ACCEL then Some (case_accel e s)
  else if program_state s =? STATE_RUNNING then Some (case_running e s)
  else if program_state s =? STATE_DEACCEL then Some (case_deaccel e s)
  else if program_state s =? STATE_SLOW then Some (case_slow e s)
  else if program_state s =? STATE_STOPPED then Some (case_stopped e s)
  else Some s.

(** ** Motor output *)

(** [analogWrite] on one of the two motor pins. *)
Definition analogWrite (pin val : Z) (s : Ctrl) : Ctrl :=
  if pin =? MOTOR_LEFT_PIN then set_pwm_left val s
  else if pin =? MOTOR_RIGHT_PIN then set_pwm_right val s
  else s.

(** The comparison [motor_speed != prev_motor_speed] of a [float] with an
    [int]. *)
Definition speed_changed (s : Ctrl) : bool :=
  negb (motor_speed s =? speed_of_int (prev_motor_speed s)).

(** The end of [loop]: the new variables and the [analogWrite] calls made,
    in order, as (pin, value). *)
Definition motor_output (s : Ctrl) : Ctrl * list (Z * Z) :=
  if speed_changed s then
    let v := int_of_speed (motor_speed s) in
    if direction_left s then
      (set_prev_motor_speed v
         (analogWrite MOTOR_RIGHT_PIN 0 (analogWrite MOTOR_LEFT_PIN v s)),
       [(MOTOR_LEFT_PIN, v); (MOTOR_RIGHT_PIN, 0)])
    else
      (set_prev_motor_speed v
         (analogWrite MOTOR_LEFT_PIN 0 (analogWrite MOTOR_RIGHT_PIN v s)),
       [(MOTOR_RIGHT_PIN, v); (MOTOR_LEFT_PIN, 0)])
  else (s, []).

(** ** One iteration of [loop] *)

Definition loop (fuel : nat) (e : Env) (s : Ctrl) : option (Ctrl * list (Z * Z)) :=
  match state_machine fuel e (menu (key e) s) with
  | Some s' => Some (motor_output s')
  | None => None
  end.

(** The states the controller can be in at the top of [loop]. *)
Inductive reachable : Ctrl -> Prop :=
| reach_setup : forall ee now, reachable (setup now (power_on ee))
| reach_loop : forall fuel e s s' w,
    reachable s -> loop fuel e s = Some (s', w) -> reachable s'.

(** ** Properties the statements below are about *)

(** [r] is the lowest station whose sensor is asserted, or -1 when no
    station has an asserted sensor. *)
Definition lowest_asserted (hit : Z -> bool) (r : Z) : Prop :=
  (r = -1 /\ forall i, 0 <= i <= 2 -> hit i = false)
  \/ (0 <= r <= 2 /\ hit r = true /\ forall i, 0 <= i < r -> hit i = false).

(** Minutes since midnight, and the condition under which the [int]
    computation of the sketch yields them. *)
Definition minutes_of (h m : Z) : Z := h * 60 + m.

Definition minutes_fit (h m : Z) : Prop := fits_int (h * 60) /\ fits_int (h * 60 + m).

(** The train is in a motion state with a speed that is neither zero nor
    the idle hold level. *)
Definition moving (s : Ctrl) : Prop :=
  (program_state s = STATE_ACCEL \/ program_state s = STATE_RUNNING
   \/ program_state s = STATE_DEACCEL \/ program_state s = STATE_SLOW)
  /\ motor_speed s <> speed_of_int 0
  /\ motor_speed s <> speed_of_int IDLE_SPEED.

(** The duty on the channel [direction_left] selects, and on the other one. *)
Definition pwm_selected (s : Ctrl) : Z :=
  if direction_left s then pwm_left s else pwm_right s.

Definition pwm_unselected (s : Ctrl) : Z :=
  if direction_left s then pwm_right s else pwm_left s.

Definition selected_pin (s : Ctrl) : Z :=
  if direction_left s then MOTOR_LEFT_PIN else MOTOR_RIGHT_PIN.

Definition unselected_pin (s : Ctrl) : Z :=
  if direction_left s then MOTOR_RIGHT_PIN else MOTOR_LEFT_PIN.

(** Exactly the selected channel carries a non-zero duty. *)
Definition one_hot (s : Ctrl) : Prop :=
  pwm_selected s <> 0 /\ pwm_unselected s = 0.

(** [motor_speed] is between 0 and [MAX_SPEED]. *)
Definition speed_in_range (s : Ctrl) : Prop :=
  speed_of_int 0 <= motor_speed s <= speed_of_int MAX_SPEED.

(** ** Concrete runs used below *)


Definition noon : Clock := mkClock 12 0 0.

(** The controller after [setup] on an erased store. *)
Definition st_boot : Ctrl := setup 0 (power_on ∅).

Definition env_at (p : Pins) (ms us : Z) (clk : Clock) : Env :=
  mkEnv KeyNone p (fun _ => no_sensor) ms us clk.

(** The state a successful iteration leaves, [s] itself otherwise. *)
Definition after_loop (e : Env) (s : Ctrl) : Ctrl :=
  match loop 0 e s with
  | Some (s', _) => s'
  | None => s
  end.

(** Found at the left terminus, then carried over the right stop sensor,
    then waiting there. *)
Definition st_found_left : Ctrl :=
  after_loop (env_at (pins_low [L_STOP_PIN]) 0 0 noon) st_boot.

Definition st_hit_right : Ctrl :=
  after_loop (env_at (pins_low [R_STOP_PIN]) 10 10000 noon) st_found_left.

Definition st_waiting_right : Ctrl :=
  after_loop (env_at (pins_low [R_STOP_PIN]) 20 20000 noon) st_hit_right.

(** The quarter-hour departure from the right terminus. *)
Definition st_departed : Ctrl :=
  after_loop (env_at (pins_low [R_STOP_PIN]) 30 30000 noon) st_waiting_right.

(** The same departure, after the [switch] and before the motor output. *)
Definition st_before_output : Ctrl :=
  case_waiting (env_at (pins_low [R_STOP_PIN]) 30 30000 noon) st_waiting_right.

(** Six seconds into the wait at the right terminus, off the quarter hour. *)
Definition env_lights_off : Env :=
  env_at (pins_low [R_STOP_PIN]) 6020 6020000 (mkClock 12 1 6).

(** Full speed to the left, entered at time 0, and the clock reading
    [RUN_MAX_TIMER] later with no sensor covered. *)
Definition st_running_left : Ctrl :=
  set_direction_left true
    (set_runMillis 0
       (set_prev_motor_speed MAX_SPEED
          (set_motor_speed (speed_of_int MAX_SPEED)
             (set_current_station 2 (set_program_state STATE_RUNNING st_boot))))).

Definition env_run_timeout : Env := env_at no_sensor RUN_MAX_TIMER 0 noon.

(** Dwelling at the middle station at 23:00 under the default schedule. *)
Definition st_waiting_middle : Ctrl :=
  set_prev_motor_speed IDLE_SPEED
    (set_motor_speed (speed_of_int IDLE_SPEED)
       (set_current_station 1 (set_program_state STATE_WAITING st_boot))).

Definition env_night : Env := env_at no_sensor 1000 0 (mkClock 23 0 0).


(** The recovery loop sees the left stop sensor on its second pass. *)
Definition env_found_late : Env :=
  mkEnv KeyNone no_sensor
    (fun k => if (k =? 1)%nat then pins_low [L_STOP_PIN] else no_sensor)
    0 0 noon.

(** The operator sets the wait time of station 1 to 25 seconds while the
    train is accelerating. *)
Definition st_edited : Ctrl :=
  after_loop
    (mkEnv (KeyEditStations [(1, 25)]) no_sensor (fun _ => no_sensor) 40 40000 noon)
    st_departed.

(** Asleep at the left terminus with the motor off. *)
Definition st_asleep : Ctrl :=
  set_current_station 0 (set_program_state STATE_SLEEPING st_boot).

(** Running left at full speed, the train reaches the centre-right slow
    sensor and starts to decelerate towards the middle station. *)
Definition st_decel_middle : Ctrl :=
  case_running (env_at (pins_low [C_R_SLOW_PIN]) 1000 1000000 noon) st_running_left.

(** The same train at crawl speed, two seconds later. *)
Definition st_slow_middle : Ctrl :=
  set_runMillis 2000
    (set_motor_speed (speed_of_int MIN_SPEED)
       (set_program_state STATE_SLOW st_decel_middle)).

(** ** The serial console

    What the console delivers is given from outside: [Serial1.read()]
    yields the next byte, and the polling loops see the bytes in the
    batches in which they had arrived when [Serial1.available()] was
    asked. *)

(** A byte stored in a [char], which is signed on this target. *)
Definition wrap8 (z : Z) : Z := (z + 128) mod 256 - 128.

(** The inner [while (Serial1.available() > 0)] of [getSerial1Int] over
    one batch: the last character read and the number so far. *)
Fixpoint read_available (batch : list Z) (inChar input : Z) : Z * Z :=
  match batch with
  | [] => (inChar, input)
  | c :: rest =>
      let inChar := wrap8 c in
      let in_ := inChar - 48 in
      let input :=
        if (in_ >=? 0) && (in_ <=? 9) then wrap16 (wrap16 (input * 10) + in_)
        else input in
      read_available rest inChar input
  end.

(** The [do ... while (inChar != 13)] around it; [None] while no batch has
    ended in a carriage return. *)
Fixpoint getSerial1Int_from (batches : list (list Z)) (inChar input : Z) : option Z :=
  match batches with
  | [] => None
  | b :: rest =>
      let r := read_available b inChar input in
      if negb (fst r =? 13) then getSerial1Int_from rest (fst r) (snd r)
      else Some (snd r)
  end.

(** [getSerial1Int]; [inChar0] is whatever the uninitialised [inChar]
    holds. *)
Definition getSerial1Int (inChar0 : Z) (batches : list (list Z)) : option Z :=
  getSerial1Int_from batches inChar0 0.

(** The number spelled by the decimal digits among the characters. *)
Definition is_digit (c : Z) : bool := (48 <=? c) && (c <=? 57).

Fixpoint digits_value (acc : Z) (chars : list Z) : Z :=
  match chars with
  | [] => acc
  | c :: rest => digits_value (if is_digit c then acc * 10 + (c - 48) else acc) rest
  end.

(** A polling loop that reads keys until it sees [k]; the keys left over,
    or [None] while [k] has not come. *)
Fixpoint wait_key (k : Z) (keys : list Z) : option (list Z) :=
  match keys with
  | [] => None
  | c :: rest => if wrap8 c =? k then Some rest else wait_key k rest
  end.

(** *** [editStations], prompt by prompt

    [ints] are the numbers the successive calls of [getSerial1Int] return,
    [keys] the characters the polling loops read.  [None]: the editor is
    still waiting for input. *)

Inductive EditPhase : Type :=
| ShowWait                (* inside [showStations], until 'x' *)
| AskSlot                 (* "Enter the number of the slot to edit" *)
| AskTime (slot : Z)      (* "Enter the wait time" *)
| AskAgain.               (* "Edit another? (y/n)" *)

Fixpoint edit_session (fuel : nat) (ph : EditPhase) (ints keys : list Z) (s : Ctrl)
  : option Ctrl :=
  match fuel with
  | O => None
  | S fuel' =>
      match ph with
      | ShowWait =>
          match keys with
          | [] => None
          | c :: keys' =>
              if wrap8 c =? 120 then edit_session fuel' AskSlot ints keys' s
              else edit_session fuel' ShowWait ints keys' s
          end
      | AskSlot =>
          match ints with
          | [] => None
          | slot :: ints' =>
              if (slot >=? 0) && (slot <? NUM_STOPS)
              then edit_session fuel' (AskTime slot) ints' keys s
              else edit_session fuel' AskSlot ints' keys s
          end
      | AskTime slot =>
          match ints with
          | [] => None
          | stopTime :: ints' =>
              if stopTime >=? 0
              then edit_session fuel' AskAgain ints' keys
                     (set_station_wait_times
                        (aset (station_wait_times s) (Z.to_nat slot) stopTime) s)
              else edit_session fuel' (AskTime slot) ints' keys s
          end
      | AskAgain =>
          match keys with
          | [] => None
          | c :: keys' =>
              if wrap8 c =? 110 then
                Some (ee_put eeprom_addr (EeInts (station_wait_times s)) s)
              else if wrap8 c =? 121 then edit_session fuel' AskSlot ints keys' s
              else edit_session fuel' AskAgain ints keys' s
          end
      end
  end.

Definition editStations_session (ints keys : list Z) (s : Ctrl) : option Ctrl :=
  edit_session (S (length ints + length keys)) ShowWait ints keys s.

(** One round of the station editor as the operator drives it: slot
    numbers that are refused, the slot that is accepted, wait times that
    are refused, the wait time that is accepted, and the keys pressed at
    "Edit another?" before the answer. *)
Record EditRound : Type := mkRound {
  bad_slots : list Z;
  r_slot : Z;
  bad_times : list Z;
  r_time : Z;
  junk_keys : list Z
}.

Definition round_ok (r : EditRound) : Prop :=
  Forall (fun v => ~ 0 <= v < NUM_STOPS) (bad_slots r)
  /\ 0 <= r_slot r < NUM_STOPS
  /\ Forall (fun v => v < 0) (bad_times r)
  /\ 0 <= r_time r
  /\ Forall (fun c => wrap8 c <> 110 /\ wrap8 c <> 121) (junk_keys r).

(** The entry a round assigns. *)
Definition round_entry (r : EditRound) : Z * Z := (r_slot r, r_time r).

(** The numbers entered during the rounds. *)
Fixpoint script_ints (rounds : list EditRound) : list Z :=
  match rounds with
  | [] => []
  | r :: rest =>
      bad_slots r ++ r_slot r :: bad_times r ++ r_time r :: script_ints rest
  end.

(** The keys pressed at "Edit another?": "y" after every round but the
    last, "n" after the last. *)
Fixpoint script_keys (rounds : list EditRound) : list Z :=
  match rounds with
  | [] => []
  | r :: rest =>
      junk_keys r ++ (match rest with [] => 110 | _ :: _ => 121 end) :: script_keys rest
  end.

(** *** [setOnOffTime], prompt by prompt *)

(** The enable flag: assigned, and asked for again while it is not 0 or 1. *)
Fixpoint ask_enable (ints : list Z) (oot : list Z) : option (list Z) :=
  match ints with
  | [] => None
  | v :: rest =>
      let oot := aset oot 4 v in
      if (aget oot 4 <? 0) || (aget oot 4 >? 1) then ask_enable rest oot
      else Some oot
  end.

Definition setOnOffTime_session (ints keys : list Z) (s : Ctrl) : option Ctrl :=
  match ints with
  | v0 :: v1 :: v2 :: v3 :: rest =>
      let oot := aset (aset (aset (aset (on_off_times s) 0 v0) 1 v1) 2 v2) 3 v3 in
      match ask_enable rest oot with
      | Some oot' =>
          match wait_key 27 keys with
          | Some _ => Some (ee_put eeprom_addr2 (EeInts oot') (set_on_off_times oot' s))
          | None => None
          end
      | None => None
      end
  | _ => None
  end.

(** ** Invariants of the control loop *)

(** The state number and the station are inside their ranges. *)
Definition in_ranges (s : Ctrl) : Prop :=
  0 <= program_state s <= 7 /\ 0 <= current_station s <= 3.

(** At most one motor channel carries a duty, and it is the magnitude
    last written. *)
Definition pwm_consistent (s : Ctrl) : Prop :=
  (pwm_left s = 0 \/ pwm_right s = 0)
  /\ pwm_left s + pwm_right s = prev_motor_speed s
  /\ 0 <= prev_motor_speed s <= MAX_SPEED.

(** The store holds the sentinel and the two arrays as they are in RAM. *)
Definition persisted (s : Ctrl) : Prop :=
  ee_get_word (eeprom s) EE_MAGIC_ADDRESS = EE_MAGIC_NUMBER
  /\ ee_get_ints (eeprom s) eeprom_addr (Z.to_nat NUM_STOPS) = station_wait_times s
  /\ ee_get_ints (eeprom s) eeprom_addr2 5 = on_off_times s.

(** The variables no case of the [switch] assigns. *)
Definition same_config (s s' : Ctrl) : Prop :=
  station_wait_times s' = station_wait_times s
  /\ on_off_times s' = on_off_times s
  /\ eeprom s' = eeprom s
  /\ magicNumber s' = magicNumber s
  /\ pwm_left s' = pwm_left s
  /\ pwm_right s' = pwm_right s
  /\ prev_motor_speed s' = prev_motor_speed s.

(** A valid entry of the station editor. *)
Definition valid_edit (ed : Z * Z) : Prop :=
  0 <= fst ed < NUM_STOPS /\ 0 <= snd ed.

(** ** Proof steps shared by the theorems *)

(** The seven sensor lines, one case per level. *)
Ltac split_pins p :=
  cbn [existsb] in *; unfold asserted, digitalRead in *;
  destruct (p L_STOP_PIN), (p L_SLOW_PIN), (p C_L_SLOW_PIN), (p C_STOP_PIN),
    (p C_R_SLOW_PIN), (p R_SLOW_PIN), (p R_STOP_PIN);
  cbn [negb orb andb existsb int_of_bool] in *.

(** A station index: 0, 1, 2 or none of them. *)
Ltac split_station i :=
  destruct (Z.eqb_spec i 0); [subst i|];
  [|destruct (Z.eqb_spec i 1); [subst i|];
    [|destruct (Z.eqb_spec i 2); [subst i|]]].

(** A record of variables, field by field. *)
Ltac open_ctrl s := destruct s; cbn in *.

(** Reduce the field accesses and assignments, nothing else. *)
Ltac fields :=
  cbn [program_state is_startup is_running motor_speed prev_motor_speed
       direction_left temp_station current_station check_result previousMillis
       displayMillis runMillis deaccel_tick_time station_wait_times on_off_times
       magicNumber eeprom pwm_left pwm_right
       set_program_state set_is_startup set_is_running set_motor_speed
       set_prev_motor_speed set_direction_left set_temp_station
       set_current_station set_check_result set_previousMillis
       set_displayMillis set_runMillis set_deaccel_tick_time
       set_station_wait_times set_on_off_times set_magicNumber set_eeprom
       set_pwm_left set_pwm_right set_station] in *.

Ltac open_fields s := destruct s; fields.

(** Case analysis on every test the code makes. *)
Ltac split_tests :=
  repeat (fields;
          match goal with
          | |- context [if ?c then _ else _] => destruct c eqn:?
          end);
  fields.

(** Boolean tests of the code as facts about integers. *)
Ltac tests_to_Z :=
  repeat match goal with
    | H : (_ && _) = true |- _ => apply andb_prop in H; destruct H
    | H : (_ >=? _) = true |- _ => rewrite Z.geb_leb in H; apply Z.leb_le in H
    | H : (_ >=? _) = false |- _ => rewrite Z.geb_leb in H; apply Z.leb_gt in H
    | H : (_ >? _) = true |- _ => rewrite Z.gtb_ltb in H; apply Z.ltb_lt in H
    | H : (_ >? _) = false |- _ => rewrite Z.gtb_ltb in H; apply Z.ltb_ge in H
    | H : (_ <=? _) = true |- _ => apply Z.leb_le in H
    | H : (_ <=? _) = false |- _ => apply Z.leb_gt in H
    | H : (_ <? _) = true |- _ => apply Z.ltb_lt in H
    | H : (_ <? _) = false |- _ => apply Z.ltb_ge in H
    end.

Ltac speed_constants :=
  unfold speed_in_range, speed_of_int, START_SPEED, MIN_SPEED, MAX_SPEED, IDLE_SPEED in *.

(** Every branch of a case, with the tests it took as arithmetic facts. *)
Ltac by_cases s :=
  unfold speed_in_range in *; open_fields s; split_tests; tests_to_Z;
  speed_constants; fields.

(** The state numbers, for arithmetic. *)
Ltac state_constants :=
  unfold STATE_SLEEPING, STATE_STARTUP, STATE_WAITING, STATE_ACCEL, STATE_RUNNING,
    STATE_DEACCEL, STATE_SLOW, STATE_STOPPED in *.

(** Every boolean test among the hypotheses as a proposition. *)
Ltac bool_facts :=
  repeat match goal with
    | H : (_ || _) = true |- _ => apply orb_true_iff in H; destruct H
    | H : (_ || _) = false |- _ => apply orb_false_iff in H; destruct H
    | H : (_ && _) = true |- _ => apply andb_true_iff in H; destruct H
    | H : (_ && _) = false |- _ => apply andb_false_iff in H; destruct H
    | H : negb _ = true |- _ => apply negb_true_iff in H
    | H : negb _ = false |- _ => apply negb_false_iff in H
    | H : (_ =? _) = true |- _ => apply Z.eqb_eq in H
    | H : (_ =? _) = false |- _ => apply Z.eqb_neq in H
    | H : (_ >=? _) = true |- _ => rewrite Z.geb_leb in H; apply Z.leb_le in H
    | H : (_ >=? _) = false |- _ => rewrite Z.geb_leb in H; apply Z.leb_gt in H
    | H : (_ >? _) = true |- _ => rewrite Z.gtb_ltb in H; apply Z.ltb_lt in H
    | H : (_ >? _) = false |- _ => rewrite Z.gtb_ltb in H; apply Z.ltb_ge in H
    | H : (_ <=? _) = true |- _ => apply Z.leb_le in H
    | H : (_ <=? _) = false |- _ => apply Z.leb_gt in H
    | H : (_ <? _) = true |- _ => apply Z.ltb_lt in H
    | H : (_ <? _) = false |- _ => apply Z.ltb_ge in H
    end.

(** The decisions a statement makes with [Z.eq_dec] and the like. *)
Ltac split_decisions :=
  repeat match goal with
    | |- context [Z.eq_dec ?a ?b] => destruct (Z.eq_dec a b)
    | |- context [Z_lt_dec ?a ?b] => destruct (Z_lt_dec a b)
    | |- context [Z_le_dec ?a ?b] => destruct (Z_le_dec a b)
    end.

(** Close a branch of a case by arithmetic on states, speeds and times. *)
Ltac close_branch :=
  state_constants; speed_constants; fields; cbn [In fst snd] in *;
  split_decisions;
  intuition (try lia; try discriminate; try congruence).

(** The addresses of the three stored objects. *)
Ltac store_addresses :=
  unfold EE_MAGIC_ADDRESS, eeprom_addr, eeprom_addr2 in *.

(** * Theorems *)

(** ** Sensor queries *)

Lemma count_asserted_sum (p : Pins) :
  Z.of_nat (count_asserted p) =
    int_of_bool (asserted p L_STOP_PIN) + int_of_bool (asserted p L_SLOW_PIN)
    + int_of_bool (asserted p C_L_SLOW_PIN) + int_of_bool (asserted p C_STOP_PIN)
    + int_of_bool (asserted p C_R_SLOW_PIN) + int_of_bool (asserted p R_SLOW_PIN)
    + int_of_bool (asserted p R_STOP_PIN).
Proof.
  unfold count_asserted, sensor_pins.
  repeat rewrite filter_cons.
  destruct (asserted p L_STOP_PIN), (asserted p L_SLOW_PIN),
    (asserted p C_L_SLOW_PIN), (asserted p C_STOP_PIN),
    (asserted p C_R_SLOW_PIN), (asserted p R_SLOW_PIN),
    (asserted p R_STOP_PIN); reflexivity.
Qed.

(** C7. With at most one asserted sensor line, [check_stop] returns the
    station of the asserted stop sensor (0 left, 1 centre, 2 right) and
    [check_slow] the station of the asserted slow sensor (0 left, 1 for
    either centre slow sensor, 2 right); with no asserted line both return
    -1. *)
Theorem check_single_sensor (p : Pins) :
  (count_asserted p <= 1)%nat ->
  (forall i, stop_asserted p i = true -> check_stop p = i)
  /\ (forall i, slow_asserted p i = true -> check_slow p = i)
  /\ (count_asserted p = 0%nat -> check_stop p = -1 /\ check_slow p = -1).
Proof.
  intros Hle.
  pose proof (count_asserted_sum p) as Hsum.
  assert (Hone : Z.of_nat (count_asserted p) <= 1) by lia.
  rewrite Hsum in Hone. clear Hle.
  split; [|split].
  - intros i Hi. unfold stop_asserted, stop_pins_of in Hi. unfold check_stop.
    split_station i; split_pins p; try discriminate; try lia; reflexivity.
  - intros i Hi. unfold slow_asserted, slow_pins_of in Hi. unfold check_slow.
    split_station i; split_pins p; try discriminate; try lia; reflexivity.
  - intros H0. rewrite H0 in Hsum. unfold check_stop, check_slow.
    split_pins p; try lia; split; reflexivity.
Qed.

(** C7, at a snapshot where only the right slow sensor is covered. *)
Lemma check_single_sensor_witness :
  (count_asserted (pins_low [R_SLOW_PIN]) <= 1)%nat
  /\ check_slow (pins_low [R_SLOW_PIN]) = 2.
Proof.
  split; [vm_compute; lia|].
  apply (check_single_sensor (pins_low [R_SLOW_PIN])); [vm_compute; lia|reflexivity].
Defined.

(** C10. For every snapshot, also with several asserted lines,
    [check_stop] and [check_slow] return the lowest station with an
    asserted sensor (left before centre before right), [check_slow]
    answers 1 for either centre slow sensor unless the left one is
    asserted too, and both results lie in {-1, 0, 1, 2}. *)
Theorem check_lowest_station (p : Pins) :
  lowest_asserted (stop_asserted p) (check_stop p)
  /\ lowest_asserted (slow_asserted p) (check_slow p)
  /\ (check_slow p = 1 <->
      asserted p L_SLOW_PIN = false
      /\ (asserted p C_L_SLOW_PIN = true \/ asserted p C_R_SLOW_PIN = true))
  /\ -1 <= check_stop p <= 2
  /\ -1 <= check_slow p <= 2.
Proof.
  assert (Hstop : lowest_asserted (stop_asserted p) (check_stop p)).
  { unfold lowest_asserted, check_stop, stop_asserted, stop_pins_of.
    unfold asserted, digitalRead.
    destruct (p L_STOP_PIN) eqn:E0; cbn [negb];
      [|right; cbn; rewrite E0; repeat split; try lia; intros; lia].
    destruct (p C_STOP_PIN) eqn:E1; cbn [negb].
    2:{ right. cbn. rewrite E1. repeat split; try lia.
        intros i Hi. assert (i = 0) by lia. subst i. cbn. now rewrite E0. }
    destruct (p R_STOP_PIN) eqn:E2; cbn [negb].
    2:{ right. cbn. rewrite E2. repeat split; try lia.
        intros i Hi. assert (i = 0 \/ i = 1) as [-> | ->] by lia; cbn;
          [now rewrite E0 | now rewrite E1]. }
    left. split; [reflexivity|].
    intros i Hi. assert (i = 0 \/ i = 1 \/ i = 2) as [-> | [-> | ->]] by lia; cbn;
      [now rewrite E0 | now rewrite E1 | now rewrite E2]. }
  assert (Hslow : lowest_asserted (slow_asserted p) (check_slow p)).
  { unfold lowest_asserted, check_slow, slow_asserted, slow_pins_of.
    unfold asserted, digitalRead.
    destruct (p L_SLOW_PIN) eqn:E0; cbn [negb];
      [|right; cbn; rewrite E0; repeat split; try lia; intros; lia].
    destruct (negb (p C_L_SLOW_PIN) || negb (p C_R_SLOW_PIN)) eqn:E1.
    { right. cbn. rewrite orb_false_r, E1. repeat split; try lia.
      intros i Hi. assert (i = 0) by lia. subst i. cbn. now rewrite E0. }
    destruct (p R_SLOW_PIN) eqn:E2; cbn [negb].
    2:{ right. cbn. rewrite E2. repeat split; try lia.
        intros i Hi. assert (i = 0 \/ i = 1) as [-> | ->] by lia; cbn;
          [now rewrite E0 | now rewrite orb_false_r, E1]. }
    left. split; [reflexivity|].
    intros i Hi. assert (i = 0 \/ i = 1 \/ i = 2) as [-> | [-> | ->]] by lia; cbn;
      [now rewrite E0 | now rewrite orb_false_r, E1 | now rewrite E2]. }
  split; [exact Hstop|]. split; [exact Hslow|].
  split; [|split].
  - unfold check_slow, asserted, digitalRead.
    destruct (p L_SLOW_PIN), (p C_L_SLOW_PIN), (p C_R_SLOW_PIN), (p R_SLOW_PIN);
      cbn; intuition (try discriminate; try lia).
  - unfold check_stop, digitalRead.
    destruct (p L_STOP_PIN), (p C_STOP_PIN), (p R_STOP_PIN); cbn; lia.
  - unfold check_slow, digitalRead.
    destruct (p L_SLOW_PIN), (p C_L_SLOW_PIN), (p C_R_SLOW_PIN), (p R_SLOW_PIN);
      cbn; lia.
Qed.

(** ** The schedule gate *)

Lemma wrap16_fits (z : Z) : fits_int z -> wrap16 z = z.
Proof.
  unfold fits_int, wrap16. intros H.
  rewrite Z.mod_small by lia. lia.
Qed.

Lemma wrap16_minutes (h m : Z) :
  minutes_fit h m -> wrap16 (wrap16 (h * 60) + m) = minutes_of h m.
Proof.
  intros [H1 H2]. unfold minutes_of.
  rewrite (wrap16_fits (h * 60)) by exact H1.
  apply wrap16_fits. exact H2.
Qed.




(** ** The start-up case *)

Lemma recovery_body_not_found (p : Pins) (s : Ctrl) :
  check_stop p = -1 ->
  program_state (recovery_body p s) = program_state s
  /\ current_station (recovery_body p s) = -1.
Proof.
  intros Hp. unfold recovery_body. open_ctrl s. rewrite Hp. cbn. split; reflexivity.
Qed.

Lemma startup_first_not_found (e : Env) (s : Ctrl) :
  check_stop (pins e) = -1 ->
  program_state (startup_first e s) = program_state s
  /\ current_station (startup_first e s) = -1.
Proof.
  intros Hp. unfold startup_first. open_ctrl s. rewrite Hp. cbn. split; reflexivity.
Qed.


(** The result of a recovery loop that ended is the last state of its
    trace. *)
Lemma recovery_loop_trace (samples : nat -> Pins) (n : nat) :
  forall (k : nat) (s s' : Ctrl),
    recovery_loop n samples k s = Some s' -> s' = recovery_trace n samples k s.
Proof.
  induction n as [|n IH]; intros k s s' H; cbn in *.
  - destruct (current_station s =? -1); [discriminate|]. now injection H.
  - destruct (current_station s =? -1); [|now injection H].
    apply IH. exact H.
Qed.


(** As soon as a pass of the recovery loop finds a stop sensor, the case
    returns in [STATE_ACCEL]. *)
Lemma startup_returns_when_found (n : nat) (e : Env) (s : Ctrl) :
  check_stop (pins e) = -1 ->
  (forall k, (k < n)%nat -> check_stop (resample e k) = -1) ->
  0 <= check_stop (resample e n) ->
  exists s', case_startup (S n) e s = Some s'
             /\ program_state s' = STATE_ACCEL
             /\ current_station s' = check_stop (resample e n).
Proof.
  intros Hfirst Hall Hfound. unfold case_startup.
  destruct (startup_first_not_found e s Hfirst) as [_ Hcs].
  revert Hcs. generalize (startup_first e s) as s0.
  assert (Hgen : forall m k (s0 : Ctrl),
             (forall j, (k <= j < k + m)%nat -> check_stop (resample e j) = -1) ->
             0 <= check_stop (resample e (k + m)) ->
             current_station s0 = -1 ->
             exists s1, recovery_loop (S m) (resample e) k s0 = Some s1
                        /\ current_station s1 = check_stop (resample e (k + m))).
  { induction m as [|m IH]; intros k s0 Hno Hyes Hcur.
    - replace (k + 0)%nat with k in * by lia.
      exists (recovery_body (resample e k) s0).
      cbn [recovery_loop]. rewrite Hcur, Z.eqb_refl.
      assert (Hc : current_station (recovery_body (resample e k) s0)
                   = check_stop (resample e k)).
      { unfold recovery_body. open_ctrl s0.
        destruct (check_stop (resample e k) =? 0) eqn:E0; cbn.
        - apply Z.eqb_eq in E0. now rewrite E0.
        - destruct (check_stop (resample e k) >=? 1); reflexivity. }
      rewrite Hc. destruct (Z.eqb_spec (check_stop (resample e k)) (-1)); [lia|].
      split; reflexivity.
    - assert (Hk : check_stop (resample e k) = -1) by (apply Hno; lia).
      destruct (recovery_body_not_found (resample e k) s0 Hk) as [_ Hcs].
      destruct (IH (S k) (recovery_body (resample e k) s0)) as (s1 & Hl & Hc).
      { intros j Hj. apply Hno. lia. }
      { replace (S k + m)%nat with (k + S m)%nat by lia. exact Hyes. }
      { exact Hcs. }
      exists s1. split.
      + change (recovery_loop (S (S m)) (resample e) k s0)
          with (if current_station s0 =? -1
                then recovery_loop (S m) (resample e) (S k) (recovery_body (resample e k) s0)
                else Some s0).
        rewrite Hcur. exact Hl.
      + rewrite Hc. f_equal. f_equal. lia. }
  intros s0 Hcur.
  destruct (Hgen n 0%nat s0) as (s1 & Hl & Hc).
  { intros j Hj. apply Hall. lia. }
  { exact Hfound. }
  { exact Hcur. }
  exists (startup_exit e s1). rewrite Hl. split; [reflexivity|].
  unfold startup_exit. open_ctrl s1. split; [reflexivity|exact Hc].
Qed.

(** On the first look the direction chosen is the opposite of the one the
    recovery loop chooses for the same station. *)
Lemma startup_first_found (e : Env) (s : Ctrl) :
  0 <= check_stop (pins e) ->
  current_station (startup_first e s) = check_stop (pins e)
  /\ program_state (startup_first e s) = STATE_ACCEL
  /\ direction_left (startup_first e s) = (check_stop (pins e) =? 0).
Proof.
  intros Hfound. unfold startup_first. open_ctrl s.
  destruct (Z.eqb_spec (check_stop (pins e)) 0) as [E0|E0]; cbn.
  - rewrite E0. cbn. repeat split; reflexivity.
  - destruct (Z.geb_spec (check_stop (pins e)) 1) as [E1|E1]; [|lia]. cbn.
    destruct (Z.eqb_spec (check_stop (pins e)) (-1)); [lia|].
    cbn. repeat split; reflexivity.
Qed.

(** C2. What the start-up case does when a stop sensor is asserted at its
    first look: the station is recorded and the state becomes
    [STATE_ACCEL], but [direction_left] is set for station 0 and cleared
    for stations 1 and 2. *)
Theorem startup_first_look_direction (fuel : nat) (e : Env) (s : Ctrl) :
  program_state s = STATE_STARTUP ->
  0 <= check_stop (pins e) ->
  exists s',
    state_machine fuel e s = Some s'
    /\ program_state s' = STATE_ACCEL
    /\ current_station s' = check_stop (pins e)
    /\ direction_left s' = (check_stop (pins e) =? 0).
Proof.
  intros Hst Hfound.
  destruct (startup_first_found e s Hfound) as (Hcs & Hps & Hdir).
  exists (startup_exit e (startup_first e s)).
  split.
  - unfold state_machine. rewrite Hst. cbn. unfold case_startup.
    destruct fuel; cbn [recovery_loop]; rewrite Hcs;
      destruct (Z.eqb_spec (check_stop (pins e)) (-1)); try lia; reflexivity.
  - revert Hcs Hps Hdir. generalize (startup_first e s) as s0. intros s0.
    unfold startup_exit. open_ctrl s0. intros. repeat split; assumption.
Qed.

(** C2, with the left stop sensor covered at power-on: the train is put
    at station 0 heading left. *)
Lemma startup_first_look_direction_witness :
  check_stop (pins_low [L_STOP_PIN]) = 0
  /\ exists s',
       state_machine 0 (env_at (pins_low [L_STOP_PIN]) 0 0 noon) st_boot = Some s'
       /\ program_state s' = STATE_ACCEL
       /\ current_station s' = 0
       /\ direction_left s' = true.
Proof.
  split; [reflexivity|].
  apply (startup_first_look_direction 0 (env_at (pins_low [L_STOP_PIN]) 0 0 noon) st_boot);
    [reflexivity | vm_compute; discriminate].
Defined.

(** The same sensor found on the second pass of the recovery loop sends
    the train right. *)
Example startup_recovery_direction :
  exists s',
    state_machine 2 env_found_late st_boot = Some s'
    /\ current_station s' = 0 /\ direction_left s' = false.
Proof. eexists. split; [vm_compute; reflexivity|]. split; reflexivity. Qed.

(** ** The run-time guard *)

Lemma complement_direction_left (s : Ctrl) :
  direction_left (complement_direction s) = true.
Proof. unfold complement_direction. open_ctrl s. now destruct direction_left0. Qed.

(** C1. In [STATE_RUNNING], once [RUN_MAX_TIMER] has elapsed, the step
    ends in [STATE_STOPPED] with [direction_left] set, whatever it was
    before: the direction is reversed only when the train was heading
    right. *)
Theorem running_timeout_direction (fuel : nat) (e : Env) (s : Ctrl) :
  program_state s = STATE_RUNNING ->
  RUN_MAX_TIMER <= elapsed (millis e) (runMillis s) ->
  state_machine fuel e s = Some (case_running e s)
  /\ program_state (case_running e s) = STATE_STOPPED
  /\ direction_left (case_running e s) = true.
Proof.
  intros Hst Hto. split.
  - unfold state_machine. rewrite Hst. reflexivity.
  - unfold case_running.
    destruct (Z.geb_spec (elapsed (millis e) (runMillis s)) RUN_MAX_TIMER); [|lia].
    split.
    + unfold complement_direction. open_ctrl s. reflexivity.
    + generalize (complement_direction_left (set_program_state STATE_STOPPED s)).
      generalize (complement_direction (set_program_state STATE_STOPPED s)) as s0.
      intros s0. open_ctrl s0. trivial.
Qed.

(** C1, for a train running left: exactly [RUN_MAX_TIMER] after entering
    [STATE_RUNNING], with no sensor covered, it is stopped and still
    heading left. *)
Lemma running_timeout_direction_witness :
  direction_left st_running_left = true
  /\ program_state (case_running env_run_timeout st_running_left) = STATE_STOPPED
  /\ direction_left (case_running env_run_timeout st_running_left) = true.
Proof.
  split; [reflexivity|].
  apply (running_timeout_direction 0 env_run_timeout st_running_left);
    [reflexivity | vm_compute; discriminate].
Defined.

(** ** The configuration defaults *)

Lemma initEeprom_values (s : Ctrl) (a b c : Z) :
  station_wait_times s = [a; b; c] ->
  length (on_off_times s) = 5%nat ->
  station_wait_times (initEeprom s) = [10; 10; c]
  /\ on_off_times (initEeprom s) = [6; 0; 22; 0; 1].
Proof.
  intros Hswt Hoot. unfold initEeprom, ee_put. open_ctrl s. subst station_wait_times0.
  destruct on_off_times0 as [|x0 [|x1 [|x2 [|x3 [|x4 [|]]]]]]; try discriminate.
  split; reflexivity.
Qed.

(** C3. When the stored sentinel differs from [EE_MAGIC_NUMBER], [setup]
    leaves the schedule at on 06:00, off 22:00, enabled, and the wait
    times of stations 0 and 1 at 10 seconds; the wait time of station 2
    is not assigned and stays at its power-on value 0. *)
Theorem setup_reinit_values (ee : gmap Z EeObj) (now : Z) :
  ee_get_word ee EE_MAGIC_ADDRESS <> EE_MAGIC_NUMBER ->
  station_wait_times (setup now (power_on ee)) = [10; 10; 0]
  /\ on_off_times (setup now (power_on ee)) = [6; 0; 22; 0; 1].
Proof.
  intros Hmagic. unfold setup.
  replace (magicNumber (set_magicNumber
             (ee_get_word (eeprom (set_displayMillis now (power_on ee))) EE_MAGIC_ADDRESS)
             (set_displayMillis now (power_on ee))))
    with (ee_get_word ee EE_MAGIC_ADDRESS) by reflexivity.
  destruct (Z.eqb_spec (ee_get_word ee EE_MAGIC_ADDRESS) EE_MAGIC_NUMBER); [contradiction|].
  cbn [negb]. apply (initEeprom_values _ 0 0 0); reflexivity.
Qed.

(** C3, on an erased store. *)
Lemma setup_reinit_values_witness :
  ee_get_word ∅ EE_MAGIC_ADDRESS <> EE_MAGIC_NUMBER
  /\ station_wait_times (setup 0 (power_on ∅)) = [10; 10; 0].
Proof.
  split; [vm_compute; discriminate|].
  apply (setup_reinit_values ∅ 0). vm_compute; discriminate.
Defined.

(** ** Going to sleep while waiting *)

(** C5. In [STATE_WAITING], when [check_schedule] reports not operating
    the step cuts the motor power and goes to [STATE_SLEEPING] at every
    station, the middle one included. *)
Theorem waiting_sleeps_at_any_station (e : Env) (s : Ctrl) :
  check_schedule (on_off_times s) (clock e) = false ->
  program_state (case_waiting e s) = STATE_SLEEPING
  /\ motor_speed (case_waiting e s) = speed_of_int 0
  /\ current_station (case_waiting e s) = current_station s.
Proof.
  intros Hoff. unfold case_waiting. open_fields s.
  split_tests; try (rewrite Hoff in *; discriminate); repeat split; reflexivity.
Qed.

(** C5, dwelling at the middle station at 23:00 under the default
    schedule. *)
Lemma waiting_sleeps_at_any_station_witness :
  current_station st_waiting_middle = 1
  /\ program_state st_waiting_middle = STATE_WAITING
  /\ program_state (case_waiting env_night st_waiting_middle) = STATE_SLEEPING.
Proof.
  split; [reflexivity|]. split; [reflexivity|].
  apply (waiting_sleeps_at_any_station env_night st_waiting_middle). reflexivity.
Defined.

(** ** The commanded speed *)

Lemma menu_speed_in_range (k : MenuKey) (s : Ctrl) :
  speed_in_range s -> speed_in_range (menu k s).
Proof.
  intros H. destruct k; unfold menu, editStations, setOnOffTime, ee_put;
    by_cases s; lia.
Qed.

Lemma menu_keeps_motion (k : MenuKey) (s : Ctrl) :
  k <> KeyLeaveNow ->
  program_state (menu k s) = program_state s /\ motor_speed (menu k s) = motor_speed s.
Proof.
  intros Hk. destruct k; try contradiction;
    unfold menu, editStations, setOnOffTime, ee_put; open_fields s; split; reflexivity.
Qed.

Lemma motor_output_keeps_motion (s : Ctrl) :
  program_state (fst (motor_output s)) = program_state s
  /\ motor_speed (fst (motor_output s)) = motor_speed s.
Proof.
  unfold motor_output, analogWrite, speed_changed.
  open_fields s. split_tests; cbn [fst]; fields; split; reflexivity.
Qed.

Lemma case_sleeping_speed (e : Env) (s : Ctrl) :
  motor_speed (case_sleeping e s) = motor_speed s.
Proof. unfold case_sleeping. by_cases s; reflexivity. Qed.

Lemma startup_first_speed_in_range (e : Env) (s : Ctrl) :
  speed_in_range s -> speed_in_range (startup_first e s).
Proof. intros H. unfold startup_first. by_cases s; lia. Qed.

Lemma recovery_body_speed_in_range (p : Pins) (s : Ctrl) :
  speed_in_range s -> speed_in_range (recovery_body p s).
Proof. intros H. unfold recovery_body. by_cases s; lia. Qed.

Lemma recovery_loop_speed_in_range (samples : nat -> Pins) (fuel : nat) :
  forall (k : nat) (s s' : Ctrl),
    speed_in_range s -> recovery_loop fuel samples k s = Some s' -> speed_in_range s'.
Proof.
  induction fuel as [|fuel IH]; intros k s s' Hin Hloop; cbn [recovery_loop] in Hloop;
    destruct (current_station s =? -1); try discriminate;
    try (injection Hloop as <-; exact Hin).
  eapply IH; [|exact Hloop]. apply recovery_body_speed_in_range. exact Hin.
Qed.

Lemma case_startup_speed_in_range (fuel : nat) (e : Env) (s s' : Ctrl) :
  speed_in_range s -> case_startup fuel e s = Some s' -> speed_in_range s'.
Proof.
  intros Hin. unfold case_startup.
  destruct (recovery_loop fuel (resample e) 0 (startup_first e s)) as [s1|] eqn:Hl;
    [|discriminate].
  intros [= <-].
  apply recovery_loop_speed_in_range in Hl; [|apply startup_first_speed_in_range; exact Hin].
  revert Hl. unfold startup_exit. open_fields s1. trivial.
Qed.

Lemma case_waiting_speed_in_range (e : Env) (s : Ctrl) :
  speed_in_range (case_waiting e s).
Proof. unfold case_waiting. by_cases s; lia. Qed.

Lemma case_accel_speed (e : Env) (s : Ctrl) :
  motor_speed s <= motor_speed (case_accel e s)
  /\ (speed_in_range s -> speed_in_range (case_accel e s)).
Proof. unfold case_accel, stop_hit. by_cases s; lia. Qed.

Lemma case_running_speed (e : Env) (s : Ctrl) :
  motor_speed (case_running e s) = motor_speed s.
Proof.
  unfold case_running, complement_direction, stop_hit. by_cases s; reflexivity.
Qed.

Lemma case_deaccel_speed (e : Env) (s : Ctrl) :
  motor_speed (case_deaccel e s) <= motor_speed s
  /\ (speed_in_range s -> speed_in_range (case_deaccel e s)).
Proof.
  unfold case_deaccel, deaccel_ramp, stop_hit, center_stop_hit. by_cases s; lia.
Qed.

Lemma case_slow_speed (e : Env) (s : Ctrl) :
  motor_speed (case_slow e s) = motor_speed s.
Proof.
  unfold case_slow, complement_direction, stop_hit, center_stop_hit.
  by_cases s; reflexivity.
Qed.

Lemma case_stopped_speed_in_range (e : Env) (s : Ctrl) :
  speed_in_range (case_stopped e s).
Proof. unfold case_stopped. by_cases s; lia. Qed.

Lemma state_machine_speed_in_range (fuel : nat) (e : Env) (s s' : Ctrl) :
  speed_in_range s -> state_machine fuel e s = Some s' -> speed_in_range s'.
Proof.
  intros Hin. unfold state_machine.
  destruct (program_state s =? STATE_SLEEPING).
  { intros [= <-]. unfold speed_in_range. rewrite case_sleeping_speed. exact Hin. }
  destruct (program_state s =? STATE_STARTUP).
  { apply case_startup_speed_in_range. exact Hin. }
  destruct (program_state s =? STATE_WAITING).
  { intros [= <-]. apply case_waiting_speed_in_range. }
  destruct (program_state s =? STATE_ACCEL).
  { intros [= <-]. apply case_accel_speed. exact Hin. }
  destruct (program_state s =? STATE_RUNNING).
  { intros [= <-]. unfold speed_in_range. rewrite case_running_speed. exact Hin. }
  destruct (program_state s =? STATE_DEACCEL).
  { intros [= <-]. apply case_deaccel_speed. exact Hin. }
  destruct (program_state s =? STATE_SLOW).
  { intros [= <-]. unfold speed_in_range. rewrite case_slow_speed. exact Hin. }
  destruct (program_state s =? STATE_STOPPED).
  { intros [= <-]. apply case_stopped_speed_in_range. }
  intros [= <-]. exact Hin.
Qed.

Lemma loop_inv (fuel : nat) (e : Env) (s s' : Ctrl) (w : list (Z * Z)) :
  loop fuel e s = Some (s', w) ->
  exists s1, state_machine fuel e (menu (key e) s) = Some s1
             /\ s' = fst (motor_output s1) /\ w = snd (motor_output s1).
Proof.
  unfold loop. destruct (state_machine fuel e (menu (key e) s)) as [s1|]; [|discriminate].
  intros [= H]. exists s1. rewrite H. repeat split; reflexivity.
Qed.

Lemma reachable_speed_in_range (s : Ctrl) : reachable s -> speed_in_range s.
Proof.
  induction 1 as [ee now | fuel e s s' w _ IH Hloop].
  - unfold setup, initEeprom, ee_put, power_on. fields. split_tests; speed_constants; fields; lia.
  - apply loop_inv in Hloop. destruct Hloop as (s1 & Hsm & -> & _).
    unfold speed_in_range. rewrite (proj2 (motor_output_keeps_motion s1)).
    eapply state_machine_speed_in_range; [|exact Hsm].
    apply menu_speed_in_range. exact IH.
Qed.

Lemma after_loop_reachable (e : Env) (s : Ctrl) :
  reachable s -> loop 0 e s <> None -> reachable (after_loop e s).
Proof.
  intros Hs Hl. unfold after_loop.
  destruct (loop 0 e s) as [[s' w]|] eqn:E; [|contradiction].
  eapply reach_loop; [exact Hs|exact E].
Qed.

Lemma st_waiting_right_reachable : reachable st_waiting_right.
Proof.
  repeat (apply after_loop_reachable; [|vm_compute; discriminate]).
  apply reach_setup.
Qed.

Lemma st_departed_reachable : reachable st_departed.
Proof.
  apply after_loop_reachable; [|vm_compute; discriminate].
  apply st_waiting_right_reachable.
Qed.

(** C4, as stated, fails: after the quarter-hour departure from the right
    terminus the controller is accelerating at [START_SPEED], below
    [MIN_SPEED]. *)
Lemma speed_floor_counterexample :
  reachable st_departed
  /\ moving st_departed
  /\ motor_speed st_departed = speed_of_int START_SPEED
  /\ motor_speed st_departed < speed_of_int MIN_SPEED.
Proof.
  split; [apply st_departed_reachable|].
  split; [|split; [reflexivity|reflexivity]].
  split; [left; reflexivity|]. split; vm_compute; discriminate.
Qed.

(** C4, amended. In every reachable state [motor_speed] lies in
    [0, MAX_SPEED]; over an iteration of [loop] that starts in
    [STATE_ACCEL] it does not decrease and over one that starts in
    [STATE_DEACCEL] it does not increase (no leave-now key pressed); a
    departure from [STATE_WAITING] starts at [START_SPEED], which is
    below [MIN_SPEED]. *)
Theorem speed_bounds_and_ramps :
  (forall s, reachable s ->
     speed_of_int 0 <= motor_speed s <= speed_of_int MAX_SPEED)
  /\ (forall fuel e s s' w,
        program_state s = STATE_ACCEL -> key e <> KeyLeaveNow ->
        loop fuel e s = Some (s', w) -> motor_speed s <= motor_speed s')
  /\ (forall fuel e s s' w,
        program_state s = STATE_DEACCEL -> key e <> KeyLeaveNow ->
        loop fuel e s = Some (s', w) -> motor_speed s' <= motor_speed s)
  /\ (forall fuel e s s' w,
        program_state s = STATE_WAITING -> key e <> KeyLeaveNow ->
        loop fuel e s = Some (s', w) -> program_state s' = STATE_ACCEL ->
        motor_speed s' = speed_of_int START_SPEED)
  /\ START_SPEED < MIN_SPEED.
Proof.
  split; [exact reachable_speed_in_range|].
  split; [|split; [|split; [|reflexivity]]].
  - intros fuel e s s' w Hst Hk Hloop.
    apply loop_inv in Hloop. destruct Hloop as (s1 & Hsm & -> & _).
    destruct (menu_keeps_motion (key e) s Hk) as [Hps Hms].
    rewrite (proj2 (motor_output_keeps_motion s1)), <- Hms.
    unfold state_machine in Hsm. rewrite Hps, Hst in Hsm. cbn in Hsm.
    injection Hsm as <-. apply case_accel_speed.
  - intros fuel e s s' w Hst Hk Hloop.
    apply loop_inv in Hloop. destruct Hloop as (s1 & Hsm & -> & _).
    destruct (menu_keeps_motion (key e) s Hk) as [Hps Hms].
    rewrite (proj2 (motor_output_keeps_motion s1)), <- Hms.
    unfold state_machine in Hsm. rewrite Hps, Hst in Hsm. cbn in Hsm.
    injection Hsm as <-. apply case_deaccel_speed.
  - intros fuel e s s' w Hst Hk Hloop Hacc.
    apply loop_inv in Hloop. destruct Hloop as (s1 & Hsm & -> & _).
    destruct (menu_keeps_motion (key e) s Hk) as [Hps _].
    destruct (motor_output_keeps_motion s1) as [Hps1 Hms1].
    rewrite Hps1 in Hacc. rewrite Hms1.
    unfold state_machine in Hsm. rewrite Hps, Hst in Hsm. cbn in Hsm.
    injection Hsm as <-. rewrite <- Hps in Hst. clear Hps Hps1 Hms1.
    revert Hst Hacc. generalize (menu (key e) s) as s0. intros s0.
    unfold case_waiting. open_fields s0. intros Hst.
    split_tests; intros Hacc; try discriminate; try reflexivity;
      unfold STATE_WAITING, STATE_ACCEL in *; lia.
Qed.

(** C4 amended, at the state reached by the quarter-hour departure and
    over the next iteration of [loop], one acceleration tick later. *)
Lemma speed_bounds_and_ramps_witness :
  speed_of_int 0 <= motor_speed st_departed <= speed_of_int MAX_SPEED
  /\ motor_speed st_departed
     <= motor_speed (after_loop (env_at no_sensor 200 200000 noon) st_departed).
Proof.
  destruct speed_bounds_and_ramps as (Hrange & Hup & _).
  split; [apply Hrange; apply st_departed_reachable|].
  apply (Hup 0%nat (env_at no_sensor 200 200000 noon) st_departed _
           (snd (motor_output (case_accel (env_at no_sensor 200 200000 noon) st_departed))));
    [reflexivity | discriminate | vm_compute; reflexivity].
Defined.

(** ** Motor output *)

Lemma int_of_speed_exact (n : Z) : int_of_speed (speed_of_int n) = n.
Proof.
  unfold int_of_speed, speed_of_int. rewrite Z.mul_comm. apply Z.quot_mul. lia.
Qed.

Lemma int_of_speed_nonzero (q : Z) :
  0 <= q -> (int_of_speed q <> 0 <-> speed_of_int 1 <= q).
Proof.
  intros Hq. unfold int_of_speed, speed_of_int.
  rewrite Z.quot_div_nonneg by lia.
  split; intros H.
  - destruct (Z.lt_ge_cases q 4) as [Hlt|Hge]; [|lia].
    exfalso. apply H. apply Z.div_small. lia.
  - intros H0. apply Z.div_small_iff in H0; lia.
Qed.

(** C6, as stated, fails: six seconds into a wait at the right terminus
    the lights are switched off, and the emission writes zero to both
    channels. *)
Lemma motor_output_counterexample :
  reachable st_waiting_right
  /\ match loop 0 env_lights_off st_waiting_right with
     | Some (s', w) =>
         w = [(MOTOR_LEFT_PIN, 0); (MOTOR_RIGHT_PIN, 0)] /\ ~ one_hot s'
     | None => False
     end.
Proof.
  split; [apply st_waiting_right_reachable|].
  vm_compute. split; [reflexivity|]. intros [H _]. apply H. reflexivity.
Qed.

(** C6, amended. An emission writes the integer part of [motor_speed] to
    the channel [direction_left] selects and zero to the other one, so
    the selected channel is non-zero exactly when [motor_speed] is at
    least 1; it is made whenever the integer part of [motor_speed]
    differs from the magnitude last written, and nothing is written when
    [motor_speed] equals that magnitude. *)
Theorem motor_output_channels (s : Ctrl) :
  (speed_changed s = true ->
     snd (motor_output s)
       = [(selected_pin s, int_of_speed (motor_speed s)); (unselected_pin s, 0)]
     /\ pwm_selected (fst (motor_output s)) = int_of_speed (motor_speed s)
     /\ pwm_unselected (fst (motor_output s)) = 0
     /\ prev_motor_speed (fst (motor_output s)) = int_of_speed (motor_speed s)
     /\ direction_left (fst (motor_output s)) = direction_left s)
  /\ (speed_changed s = false -> motor_output s = (s, []))
  /\ (int_of_speed (motor_speed s) <> prev_motor_speed s -> speed_changed s = true)
  /\ (motor_speed s = speed_of_int (prev_motor_speed s) -> speed_changed s = false)
  /\ (0 <= motor_speed s ->
      (int_of_speed (motor_speed s) <> 0 <-> speed_of_int 1 <= motor_speed s)).
Proof.
  split; [|split; [|split; [|split]]].
  - intros Hch. unfold motor_output. rewrite Hch.
    unfold pwm_selected, pwm_unselected, selected_pin, unselected_pin, analogWrite.
    open_fields s. destruct direction_left0; cbn; repeat split; reflexivity.
  - intros Hch. unfold motor_output. now rewrite Hch.
  - intros Hne. unfold speed_changed.
    destruct (Z.eqb_spec (motor_speed s) (speed_of_int (prev_motor_speed s))) as [E|E];
      [|reflexivity].
    exfalso. apply Hne. rewrite E. apply int_of_speed_exact.
  - intros E. unfold speed_changed. rewrite E, Z.eqb_refl. reflexivity.
  - apply int_of_speed_nonzero.
Qed.

(** C6 amended, at the departure from the right terminus: the speed goes
    from the idle level 8 to [START_SPEED] heading left. *)
Lemma motor_output_channels_witness :
  speed_changed st_before_output = true
  /\ snd (motor_output st_before_output) = [(MOTOR_LEFT_PIN, 10); (MOTOR_RIGHT_PIN, 0)].
Proof.
  split; [reflexivity|].
  apply (proj1 (motor_output_channels st_before_output)). reflexivity.
Defined.

(** ** Start-up over a whole iteration of [loop] *)




(** * Further properties of the code *)

(** ** Sensor queries and the schedule *)

Lemma check_slow_range (p : Pins) : -1 <= check_slow p <= 2.
Proof.
  unfold check_slow.
  destruct (negb (digitalRead p L_SLOW_PIN)),
    (negb (digitalRead p C_L_SLOW_PIN) || negb (digitalRead p C_R_SLOW_PIN)),
    (negb (digitalRead p R_SLOW_PIN)); lia.
Qed.

Lemma check_stop_range (p : Pins) : -1 <= check_stop p <= 2.
Proof.
  unfold check_stop.
  destruct (negb (digitalRead p L_STOP_PIN)), (negb (digitalRead p C_STOP_PIN)),
    (negb (digitalRead p R_STOP_PIN)); lia.
Qed.

(** X1. [check_center_slow] answers 0 (left of the middle station) whenever
    the centre-left slow sensor is asserted, 2 only when the centre-right
    one is and the centre-left one is not, and -1 when neither is; when it
    names a side, [check_slow] answers station 1 unless the left terminus
    slow sensor is asserted as well. *)
Theorem check_center_slow_side (p : Pins) :
  (check_center_slow p = 0 <-> asserted p C_L_SLOW_PIN = true)
  /\ (check_center_slow p = 2 <->
      asserted p C_L_SLOW_PIN = false /\ asserted p C_R_SLOW_PIN = true)
  /\ (check_center_slow p = -1 <->
      asserted p C_L_SLOW_PIN = false /\ asserted p C_R_SLOW_PIN = false)
  /\ (check_center_slow p <> -1 ->
      check_slow p = (if asserted p L_SLOW_PIN then 0 else 1)).
Proof.
  unfold check_center_slow, check_slow, asserted, digitalRead.
  destruct (p L_SLOW_PIN), (p C_L_SLOW_PIN), (p C_R_SLOW_PIN), (p R_SLOW_PIN);
    cbn; intuition (try discriminate; try lia; try congruence).
Qed.

(** X1, with only the centre-right slow sensor covered. *)
Lemma check_center_slow_side_witness :
  check_center_slow (pins_low [C_R_SLOW_PIN]) <> -1
  /\ check_slow (pins_low [C_R_SLOW_PIN]) = 1.
Proof.
  split; [vm_compute; discriminate|].
  apply (check_center_slow_side (pins_low [C_R_SLOW_PIN])). vm_compute; discriminate.
Defined.

(** X2. An enabled schedule whose off time is not later in the day than its
    on time (one that would span midnight) never reports operating. *)
Theorem check_schedule_overnight (oot : list Z) (clk : Clock) :
  minutes_fit (c_hour clk) (c_minute clk) ->
  minutes_fit (aget oot 0) (aget oot 1) ->
  minutes_fit (aget oot 2) (aget oot 3) ->
  aget oot 4 <> 0 ->
  minutes_of (aget oot 2) (aget oot 3) <= minutes_of (aget oot 0) (aget oot 1) ->
  check_schedule oot clk = false.
Proof.
  intros Hnow Hon Hoff Hen Hle. unfold check_schedule.
  rewrite (wrap16_minutes _ _ Hnow), (wrap16_minutes _ _ Hon), (wrap16_minutes _ _ Hoff).
  destruct (Z.eqb_spec (aget oot 4) 0) as [E|_]; [contradiction|].
  destruct (Z.geb_spec (minutes_of (c_hour clk) (c_minute clk))
              (minutes_of (aget oot 0) (aget oot 1)));
    destruct (Z.ltb_spec (minutes_of (c_hour clk) (c_minute clk))
                (minutes_of (aget oot 2) (aget oot 3)));
    cbn [andb]; try reflexivity; lia.
Qed.

(** X2, on 22:00, off 06:00: not operating at 23:30. *)
Lemma check_schedule_overnight_witness :
  check_schedule [22; 0; 6; 0; 1] (mkClock 23 30 0) = false.
Proof.
  assert (Hfit : forall h m, 0 <= h <= 23 -> 0 <= m <= 59 -> minutes_fit h m).
  { intros h m Hh Hm. unfold minutes_fit, fits_int. lia. }
  apply (check_schedule_overnight [22; 0; 6; 0; 1] (mkClock 23 30 0));
    try (apply Hfit; vm_compute; split; discriminate);
    vm_compute; discriminate.
Defined.

(** ** Reading a number from the console *)

Lemma wrap8_char (c : Z) : 0 <= c <= 127 -> wrap8 c = c.
Proof. intros H. unfold wrap8. rewrite Z.mod_small by lia. lia. Qed.

Lemma wrap8_high (c : Z) : 128 <= c <= 255 -> wrap8 c = c - 256.
Proof.
  intros H. unfold wrap8.
  replace (c + 128) with ((c - 128) + 1 * 256) by lia.
  rewrite Z.mod_add by lia. rewrite Z.mod_small by lia. lia.
Qed.

Lemma digits_value_mono (chars : list Z) :
  forall acc, 0 <= acc -> acc <= digits_value acc chars.
Proof.
  induction chars as [|c rest IH]; intros acc Hacc; cbn [digits_value]; [lia|].
  unfold is_digit.
  destruct (Z.leb_spec 48 c); destruct (Z.leb_spec c 57); cbn [andb];
    try (apply IH; exact Hacc).
  etransitivity; [|apply IH; lia]. lia.
Qed.

Lemma read_available_digits (batch : list Z) :
  forall inChar input,
    Forall (fun c => 0 <= c <= 255 /\ c <> 13) batch ->
    inChar <> 13 ->
    0 <= input ->
    digits_value input batch <= 32767 ->
    fst (read_available batch inChar input) <> 13
    /\ snd (read_available batch inChar input) = digits_value input batch.
Proof.
  induction batch as [|c rest IH]; intros inChar input Hall Hc Hin Hfit.
  - cbn. split; [exact Hc|reflexivity].
  - inversion Hall as [|c' rest' [Hbyte Hcr] Hrest]; subst.
    cbn [read_available digits_value] in *.
    assert (Hw : wrap8 c <> 13).
    { destruct (Z.le_gt_cases c 127).
      - rewrite wrap8_char by lia. exact Hcr.
      - rewrite wrap8_high by lia. lia. }
    assert (Hdig : ((wrap8 c - 48 >=? 0) && (wrap8 c - 48 <=? 9)) = is_digit c).
    { unfold is_digit. destruct (Z.le_gt_cases c 127).
      - rewrite wrap8_char by lia.
        destruct (Z.geb_spec (c - 48) 0), (Z.leb_spec (c - 48) 9),
          (Z.leb_spec 48 c), (Z.leb_spec c 57); cbn; try reflexivity; lia.
      - rewrite wrap8_high by lia.
        destruct (Z.geb_spec (c - 256 - 48) 0), (Z.leb_spec 48 c), (Z.leb_spec c 57);
          cbn; try reflexivity; lia. }
    rewrite Hdig. destruct (is_digit c) eqn:Ed.
    + assert (Hrange : 48 <= c <= 57).
      { unfold is_digit in Ed. apply andb_prop in Ed. lia. }
      rewrite wrap8_char by lia.
      pose proof (digits_value_mono rest (input * 10 + (c - 48))) as Hm.
      assert (Hsmall : input * 10 + (c - 48) <= 32767) by lia.
      rewrite (wrap16_fits (input * 10)) by (unfold fits_int; lia).
      rewrite (wrap16_fits (input * 10 + (c - 48))) by (unfold fits_int; lia).
      apply IH; try assumption; lia.
    + apply IH; assumption.
Qed.

(** X3. [getSerial1Int] returns the number spelled by the decimal digits
    typed before the carriage return, skipping every other character (a
    minus sign included, so the result is never negative), however the
    characters were split into batches, as long as the number fits an
    [int]. *)
Theorem getSerial1Int_digits (inChar0 : Z) (before : list (list Z)) (last : list Z) :
  Forall (fun c => 0 <= c <= 255 /\ c <> 13) (concat before ++ last) ->
  inChar0 <> 13 ->
  digits_value 0 (concat before ++ last) <= 32767 ->
  getSerial1Int inChar0 (before ++ [last ++ [13]])
    = Some (digits_value 0 (concat before ++ last))
  /\ 0 <= digits_value 0 (concat before ++ last).
Proof.
  intros Hall Hc Hfit. split; [|apply digits_value_mono; lia].
  unfold getSerial1Int.
  assert (Hgen : forall bs inChar input,
             Forall (fun c => 0 <= c <= 255 /\ c <> 13) (concat bs ++ last) ->
             inChar <> 13 -> 0 <= input ->
             digits_value input (concat bs ++ last) <= 32767 ->
             getSerial1Int_from (bs ++ [last ++ [13]]) inChar input
             = Some (digits_value input (concat bs ++ last))).
  { induction bs as [|b bs IH]; intros inChar input Hall' Hc' Hin Hfit'.
    - cbn [concat app getSerial1Int_from] in *.
      assert (Hsplit : forall l c0 i0,
                 read_available (l ++ [13]) c0 i0
                 = (13, snd (read_available l c0 i0))).
      { induction l as [|x l IHl]; intros c0 i0; cbn [app read_available].
        - reflexivity.
        - apply IHl. }
      rewrite Hsplit. cbn [fst snd]. cbn [Z.eqb Pos.eqb negb].
      f_equal. apply read_available_digits; assumption.
    - cbn [concat app getSerial1Int_from] in *.
      rewrite <- app_assoc in Hall', Hfit'. rewrite <- app_assoc.
      apply Forall_app in Hall'. destruct Hall' as [Hb Hrest].
      assert (Hdv : forall l1 l2 a,
                 digits_value a (l1 ++ l2) = digits_value (digits_value a l1) l2).
      { induction l1 as [|x l1 IHl]; intros l2 a; cbn [app digits_value]; [reflexivity|].
        apply IHl. }
      rewrite Hdv in Hfit'. rewrite Hdv.
      pose proof (digits_value_mono b input Hin) as Hm1.
      pose proof (digits_value_mono (concat bs ++ last) (digits_value input b)) as Hm2.
      destruct (read_available_digits b inChar input) as [Hne Hval];
        try assumption; try lia.
      destruct (Z.eqb_spec (fst (read_available b inChar input)) 13); [contradiction|].
      cbn [negb]. rewrite Hval.
      apply IH; try assumption; lia. }
  apply Hgen; try assumption. lia.
Qed.

(** X3, the characters "-", "4", "2" arrive first, then "0" and the carriage
    return: the number read is 420. *)
Lemma getSerial1Int_digits_witness :
  getSerial1Int 0 [[45; 52; 50]; [48; 13]] = Some 420.
Proof.
  apply (getSerial1Int_digits 0 [[45; 52; 50]] [48]).
  - repeat constructor; vm_compute; discriminate.
  - discriminate.
  - vm_compute. discriminate.
Defined.


(** ** The cases of the state machine *)

Lemma wrap32_small (z : Z) : 0 <= z < 4294967296 -> wrap32 z = z.
Proof. intros H. unfold wrap32. apply Z.mod_small. exact H. Qed.

(** X4. While the schedule says operating, the wait ends (next state
    [STATE_ACCEL], speed [START_SPEED], tick timer restarted) at the
    middle station exactly when the milliseconds elapsed exceed
    [1000 * station_wait_times[1]] taken as an [unsigned long] (the
    product itself when the wait time is not negative, so a wait time of
    -1 makes it 4294966296), and at a terminus exactly at second 0 of
    minute 0, 15, 30 or 45; otherwise the state stays [STATE_WAITING],
    with the motor at the idle level, or at zero once a terminus wait has
    lasted more than [WAIT_PAUSE_TIMER]. *)
Theorem waiting_departure (e : Env) (s : Ctrl) :
  program_state s = STATE_WAITING ->
  check_schedule (on_off_times s) (clock e) = true ->
  (program_state (case_waiting e s) = STATE_ACCEL <->
   (current_station s = 1
    /\ wrap32 (aget (station_wait_times s) 1 * 1000)
       < elapsed (millis e) (previousMillis s))
   \/ (current_station s <> 1
       /\ In (c_minute (clock e)) [0; 15; 30; 45] /\ c_second (clock e) = 0))
  /\ (0 <= aget (station_wait_times s) 1 <= 32767 ->
      wrap32 (aget (station_wait_times s) 1 * 1000)
      = aget (station_wait_times s) 1 * 1000)
  /\ (aget (station_wait_times s) 1 = -1 ->
      wrap32 (aget (station_wait_times s) 1 * 1000) = 4294966296)
  /\ (program_state (case_waiting e s) = STATE_ACCEL ->
      motor_speed (case_waiting e s) = speed_of_int START_SPEED
      /\ previousMillis (case_waiting e s) = micros e)
  /\ (program_state (case_waiting e s) <> STATE_ACCEL ->
      program_state (case_waiting e s) = STATE_WAITING
      /\ motor_speed (case_waiting e s)
         = (if Z.eq_dec (current_station s) 1 then speed_of_int IDLE_SPEED
            else if Z_lt_dec WAIT_PAUSE_TIMER (elapsed (millis e) (previousMillis s))
                 then speed_of_int 0 else speed_of_int IDLE_SPEED)).
Proof.
  assert (Hif : forall b : bool, (if b then true else false) = b) by (intros []; reflexivity).
  unfold case_waiting, depart_time. rewrite Hif. open_fields s. intros Hst Hrun.
  subst program_state0.
  assert (Hsmall : 0 <= aget station_wait_times0 1 <= 32767 ->
                   wrap32 (aget station_wait_times0 1 * 1000)
                   = aget station_wait_times0 1 * 1000)
    by (intros Hwt; apply wrap32_small; lia).
  assert (Hneg : aget station_wait_times0 1 = -1 ->
                 wrap32 (aget station_wait_times0 1 * 1000) = 4294966296)
    by (intros ->; reflexivity).
  destruct (Z.eq_dec current_station0 1) as [->|Hne].
  - rewrite !Z.eqb_refl. cbn [negb andb orb]. fields. rewrite Hrun.
    cbn [negb andb orb]. fields.
    change (Z.to_nat 1) with 1%nat.
    rewrite orb_false_r.
    destruct (Z.gtb_spec (elapsed (millis e) previousMillis0)
                (wrap32 (aget station_wait_times0 1 * 1000)));
      close_branch.
  - destruct (Z.eqb_spec current_station0 1) as [|_]; [contradiction|].
    cbn [negb andb orb]. fields.
    split_tests; bool_facts; try (rewrite Hrun in *; discriminate); close_branch.
Qed.

Lemma elapsed_same (t : Z) : elapsed t t = 0.
Proof. unfold elapsed, wrap32. rewrite Z.sub_diag. reflexivity. Qed.

(** X5. In [STATE_ACCEL] with no sensor of another station asserted: at
    [MAX_SPEED] the state becomes [STATE_RUNNING] and the run timer
    starts; below it, the speed grows by exactly one quarter of a unit
    once [ACCEL_TICK_TIME] microseconds have passed since the last tick,
    and does not change before that. *)
Theorem accel_ramp_step (e : Env) (s : Ctrl) :
  program_state s = STATE_ACCEL ->
  check_slow (pins e) = -1 \/ check_slow (pins e) = current_station s ->
  check_stop (pins e) = -1 \/ check_stop (pins e) = 1
  \/ check_stop (pins e) = current_station s ->
  current_station (case_accel e s) = current_station s
  /\ (speed_of_int MAX_SPEED <= motor_speed s ->
      program_state (case_accel e s) = STATE_RUNNING
      /\ runMillis (case_accel e s) = millis e
      /\ motor_speed (case_accel e s) = motor_speed s)
  /\ (motor_speed s < speed_of_int MAX_SPEED ->
      ACCEL_TICK_TIME <= elapsed (micros e) (previousMillis s) ->
      program_state (case_accel e s) = STATE_ACCEL
      /\ motor_speed (case_accel e s) = motor_speed s + 1
      /\ previousMillis (case_accel e s) = micros e)
  /\ (motor_speed s < speed_of_int MAX_SPEED ->
      elapsed (micros e) (previousMillis s) < ACCEL_TICK_TIME ->
      program_state (case_accel e s) = STATE_ACCEL
      /\ motor_speed (case_accel e s) = motor_speed s
      /\ previousMillis (case_accel e s) = previousMillis s).
Proof.
  unfold case_accel, stop_hit. open_fields s. intros Hst Hslow Hstop.
  split_tests; bool_facts; close_branch.
Qed.

(** X6. In [STATE_ACCEL] a slow sensor of another station starts the
    deceleration towards that station; otherwise a terminus stop sensor of
    another station makes that station the current one and stops the
    train, unless the speed has reached [MAX_SPEED], in which case the
    same pass goes on to [STATE_RUNNING]. *)
Theorem accel_sensor_hit (e : Env) (s : Ctrl) :
  (0 <= check_slow (pins e) -> check_slow (pins e) <> current_station s ->
   program_state (case_accel e s) = STATE_DEACCEL
   /\ current_station (case_accel e s) = check_slow (pins e)
   /\ motor_speed (case_accel e s) = motor_speed s
   /\ previousMillis (case_accel e s) = micros e)
  /\ (check_slow (pins e) = -1 \/ check_slow (pins e) = current_station s ->
      check_stop (pins e) = 0 \/ check_stop (pins e) = 2 ->
      check_stop (pins e) <> current_station s ->
      current_station (case_accel e s) = check_stop (pins e)
      /\ motor_speed (case_accel e s) = motor_speed s
      /\ program_state (case_accel e s)
         = (if Z_le_dec (speed_of_int MAX_SPEED) (motor_speed s)
            then STATE_RUNNING else STATE_STOPPED)).
Proof.
  unfold case_accel, stop_hit. open_fields s.
  split; intros.
  - split_tests; bool_facts; close_branch.
  - split_tests; bool_facts; rewrite ?elapsed_same in *; unfold ACCEL_TICK_TIME in *;
      close_branch.
Qed.

(** X7. In [STATE_RUNNING] before [RUN_MAX_TIMER] has elapsed: a terminus
    stop sensor stops the train at that station (also when it is the
    current one), otherwise a slow sensor of another station starts the
    deceleration, otherwise nothing changes; speed and direction are never
    touched. *)
Theorem running_before_timeout (e : Env) (s : Ctrl) :
  program_state s = STATE_RUNNING ->
  elapsed (millis e) (runMillis s) < RUN_MAX_TIMER ->
  motor_speed (case_running e s) = motor_speed s
  /\ direction_left (case_running e s) = direction_left s
  /\ (check_stop (pins e) = 0 \/ check_stop (pins e) = 2 ->
      program_state (case_running e s) = STATE_STOPPED
      /\ current_station (case_running e s) = check_stop (pins e))
  /\ (check_stop (pins e) = -1 \/ check_stop (pins e) = 1 ->
      0 <= check_slow (pins e) -> check_slow (pins e) <> current_station s ->
      program_state (case_running e s) = STATE_DEACCEL
      /\ current_station (case_running e s) = check_slow (pins e)
      /\ previousMillis (case_running e s) = micros e)
  /\ (check_stop (pins e) = -1 \/ check_stop (pins e) = 1 ->
      check_slow (pins e) = -1 \/ check_slow (pins e) = current_station s ->
      program_state (case_running e s) = STATE_RUNNING
      /\ current_station (case_running e s) = current_station s
      /\ runMillis (case_running e s) = runMillis s).
Proof.
  unfold case_running, stop_hit, complement_direction. open_fields s. intros Hst Hto.
  unfold RUN_MAX_TIMER in *.
  split_tests; bool_facts; close_branch.
Qed.

(** X8. In [STATE_DEACCEL] the train stops exactly when a terminus stop
    sensor is asserted, or when the middle stop sensor is asserted
    together with the middle slow sensor on the far side in the direction
    of travel (centre-left heading left, centre-right heading right); the
    station it stops at is the one [check_stop] names. *)
Theorem deaccel_stop_conditions (e : Env) (s : Ctrl) :
  program_state s = STATE_DEACCEL ->
  (program_state (case_deaccel e s) = STATE_STOPPED <->
   check_stop (pins e) = 0 \/ check_stop (pins e) = 2
   \/ (check_stop (pins e) = 1
       /\ ((check_center_slow (pins e) = 0 /\ direction_left s = true)
           \/ (check_center_slow (pins e) = 2 /\ direction_left s = false))))
  /\ (program_state (case_deaccel e s) = STATE_STOPPED ->
      current_station (case_deaccel e s) = check_stop (pins e)
      /\ motor_speed (case_deaccel e s) = motor_speed s
      /\ direction_left (case_deaccel e s) = direction_left s).
Proof.
  pose proof (check_stop_range (pins e)) as Hr.
  unfold case_deaccel, deaccel_ramp, stop_hit, center_stop_hit. open_fields s. intros Hst.
  split_tests; bool_facts; close_branch.
Qed.

(** X9. In [STATE_DEACCEL], when no stop condition fires: at or below
    [MIN_SPEED] the state becomes [STATE_SLOW] and the crawl timer
    starts; above it the speed drops by one whole unit per tick, a tick
    being due after 19000 microseconds on the approach to the middle
    station and after 1 microsecond otherwise. *)
Theorem deaccel_ramp_step (e : Env) (s : Ctrl) :
  program_state s = STATE_DEACCEL ->
  program_state (case_deaccel e s) <> STATE_STOPPED ->
  (motor_speed s <= speed_of_int MIN_SPEED ->
   program_state (case_deaccel e s) = STATE_SLOW
   /\ runMillis (case_deaccel e s) = millis e
   /\ motor_speed (case_deaccel e s) = motor_speed s)
  /\ (speed_of_int MIN_SPEED < motor_speed s ->
      (if Z.eq_dec (current_station s) 1 then 19000 else 1)
      <= elapsed (micros e) (previousMillis s) ->
      program_state (case_deaccel e s) = STATE_DEACCEL
      /\ motor_speed (case_deaccel e s) = motor_speed s - speed_of_int 1
      /\ previousMillis (case_deaccel e s) = micros e)
  /\ (speed_of_int MIN_SPEED < motor_speed s ->
      elapsed (micros e) (previousMillis s)
      < (if Z.eq_dec (current_station s) 1 then 19000 else 1) ->
      program_state (case_deaccel e s) = STATE_DEACCEL
      /\ motor_speed (case_deaccel e s) = motor_speed s)
  /\ current_station (case_deaccel e s) = current_station s.
Proof.
  unfold case_deaccel, deaccel_ramp, stop_hit, center_stop_hit. open_fields s.
  intros Hst.
  split_tests; intros Hns; bool_facts;
    rewrite ?(wrap32_small 19000), ?(wrap32_small 1) in * by lia;
    close_branch.
Qed.

(** X10. In [STATE_SLOW]: once [SLOW_MAX_TIMER] has elapsed the train is
    stopped with [direction_left] set, whatever it was; before that it
    stops exactly at a terminus stop sensor, or, when bound for the
    middle station, at the middle slow sensor on the far side, and
    otherwise stays in [STATE_SLOW]; the speed is never changed. *)
Theorem slow_step (e : Env) (s : Ctrl) :
  program_state s = STATE_SLOW ->
  motor_speed (case_slow e s) = motor_speed s
  /\ (SLOW_MAX_TIMER <= elapsed (millis e) (runMillis s) ->
      program_state (case_slow e s) = STATE_STOPPED
      /\ direction_left (case_slow e s) = true
      /\ current_station (case_slow e s) = current_station s)
  /\ (elapsed (millis e) (runMillis s) < SLOW_MAX_TIMER ->
      (program_state (case_slow e s) = STATE_STOPPED <->
       check_stop (pins e) = 0 \/ check_stop (pins e) = 2
       \/ (current_station s = 1
           /\ ((check_center_slow (pins e) = 0 /\ direction_left s = true)
               \/ (check_center_slow (pins e) = 2 /\ direction_left s = false))))
      /\ (program_state (case_slow e s) = STATE_STOPPED
          \/ program_state (case_slow e s) = STATE_SLOW)
      /\ direction_left (case_slow e s) = direction_left s).
Proof.
  pose proof (check_stop_range (pins e)) as Hr.
  unfold case_slow, stop_hit, center_stop_hit, complement_direction. open_fields s.
  intros Hst. unfold SLOW_MAX_TIMER in *.
  split_tests; bool_facts; destruct direction_left0; close_branch.
Qed.

(** X11. [STATE_STOPPED] puts the motor at the idle level and restarts the
    wait timer; at the right terminus the direction becomes left, at the
    left terminus right, at the middle station it is kept; the next state
    is [STATE_SLEEPING] exactly when the train is at the left terminus
    and the schedule says not operating, and [STATE_WAITING] otherwise. *)
Theorem stopped_step (e : Env) (s : Ctrl) :
  motor_speed (case_stopped e s) = speed_of_int IDLE_SPEED
  /\ previousMillis (case_stopped e s) = millis e
  /\ current_station (case_stopped e s) = current_station s
  /\ direction_left (case_stopped e s)
     = (if Z.eq_dec (current_station s) 2 then true
        else if Z.eq_dec (current_station s) 0 then false
             else direction_left s)
  /\ (program_state (case_stopped e s) = STATE_SLEEPING <->
      current_station s = 0 /\ check_schedule (on_off_times s) (clock e) = false)
  /\ (program_state (case_stopped e s) = STATE_SLEEPING
      \/ program_state (case_stopped e s) = STATE_WAITING).
Proof.
  unfold case_stopped. open_fields s.
  split_tests; bool_facts; close_branch.
Qed.

(** ** Invariants of the control loop *)

Lemma menu_in_ranges (k : MenuKey) (s : Ctrl) : in_ranges s -> in_ranges (menu k s).
Proof.
  unfold in_ranges. destruct k; unfold menu, editStations, setOnOffTime, ee_put;
    open_fields s; intros; close_branch.
Qed.

Lemma recovery_loop_station (samples : nat -> Pins) (fuel : nat) :
  forall (k : nat) (s s' : Ctrl),
    -1 <= current_station s <= 3 ->
    recovery_loop fuel samples k s = Some s' ->
    0 <= current_station s' <= 3.
Proof.
  induction fuel as [|fuel IH]; intros k s s' Hin Hloop; cbn [recovery_loop] in Hloop;
    destruct (Z.eqb_spec (current_station s) (-1)) as [Heq|Hne]; try discriminate;
    try (injection Hloop as <-; lia).
  eapply IH; [|exact Hloop].
  pose proof (check_stop_range (samples k)) as Hr.
  unfold recovery_body. clear Hloop Hin Heq. open_fields s.
  split_tests; bool_facts; close_branch.
Qed.

Lemma state_machine_in_ranges (fuel : nat) (e : Env) (s s' : Ctrl) :
  in_ranges s -> state_machine fuel e s = Some s' -> in_ranges s'.
Proof.
  pose proof (check_stop_range (pins e)) as Hstop.
  pose proof (check_slow_range (pins e)) as Hslow.
  intros Hin. unfold state_machine.
  destruct (program_state s =? STATE_SLEEPING).
  { intros [= <-]. revert Hin. unfold in_ranges, case_sleeping. open_fields s.
    intros. split_tests; close_branch. }
  destruct (program_state s =? STATE_STARTUP).
  { unfold case_startup.
    destruct (recovery_loop fuel (resample e) 0 (startup_first e s)) as [s1|] eqn:Hl;
      [|discriminate].
    intros [= <-]. apply recovery_loop_station in Hl.
    - revert Hl. unfold in_ranges, startup_exit. open_fields s1. intros. close_branch.
    - unfold startup_first. clear Hl. open_fields s.
      split_tests; bool_facts; close_branch. }
  destruct (program_state s =? STATE_WAITING).
  { intros [= <-]. revert Hin. unfold in_ranges, case_waiting. open_fields s.
    intros. split_tests; close_branch. }
  destruct (program_state s =? STATE_ACCEL).
  { intros [= <-]. revert Hin. unfold in_ranges, case_accel, stop_hit. open_fields s.
    intros. split_tests; bool_facts; close_branch. }
  destruct (program_state s =? STATE_RUNNING).
  { intros [= <-]. revert Hin.
    unfold in_ranges, case_running, stop_hit, complement_direction. open_fields s.
    intros. split_tests; bool_facts; close_branch. }
  destruct (program_state s =? STATE_DEACCEL).
  { intros [= <-]. revert Hin.
    unfold in_ranges, case_deaccel, deaccel_ramp, stop_hit, center_stop_hit.
    open_fields s. intros. split_tests; bool_facts; close_branch. }
  destruct (program_state s =? STATE_SLOW).
  { intros [= <-]. revert Hin.
    unfold in_ranges, case_slow, stop_hit, center_stop_hit, complement_direction.
    open_fields s. intros. split_tests; bool_facts; close_branch. }
  destruct (program_state s =? STATE_STOPPED).
  { intros [= <-]. revert Hin. unfold in_ranges, case_stopped. open_fields s.
    intros. split_tests; close_branch. }
  intros [= <-]. exact Hin.
Qed.

Lemma motor_output_in_ranges (s : Ctrl) :
  in_ranges s -> in_ranges (fst (motor_output s)).
Proof.
  unfold in_ranges, motor_output, analogWrite, speed_changed. open_fields s.
  intros. split_tests; close_branch.
Qed.

(** X12. At the top of every iteration of [loop] the state number is one of
    the eight states and [current_station] is 0, 1, 2 or the power-on
    value 3; in particular it is never -1 there. *)
Theorem reachable_in_ranges (s : Ctrl) :
  reachable s ->
  0 <= program_state s <= 7 /\ 0 <= current_station s <= 3.
Proof.
  induction 1 as [ee now | fuel e s s' w _ IH Hloop].
  - unfold setup, initEeprom, ee_put, power_on. fields. split_tests; fields; lia.
  - apply loop_inv in Hloop. destruct Hloop as (s1 & Hsm & -> & _).
    apply motor_output_in_ranges.
    eapply state_machine_in_ranges; [|exact Hsm].
    apply menu_in_ranges. exact IH.
Qed.

(** X12 at a reachable state. *)
Lemma reachable_in_ranges_witness :
  0 <= program_state st_departed <= 7 /\ 0 <= current_station st_departed <= 3.
Proof. apply (reachable_in_ranges st_departed). apply st_departed_reachable. Defined.

Lemma same_config_refl (s : Ctrl) : same_config s s.
Proof. unfold same_config. repeat split; reflexivity. Qed.

Lemma same_config_trans (s1 s2 s3 : Ctrl) :
  same_config s1 s2 -> same_config s2 s3 -> same_config s1 s3.
Proof. unfold same_config. intuition congruence. Qed.

Lemma recovery_loop_same_config (samples : nat -> Pins) (fuel : nat) :
  forall (k : nat) (s s' : Ctrl),
    recovery_loop fuel samples k s = Some s' -> same_config s s'.
Proof.
  induction fuel as [|fuel IH]; intros k s s' Hloop; cbn [recovery_loop] in Hloop;
    destruct (current_station s =? -1); try discriminate;
    try (injection Hloop as <-; apply same_config_refl).
  eapply same_config_trans; [|eapply IH; exact Hloop].
  unfold same_config, recovery_body. clear Hloop. open_fields s.
  split_tests; repeat split; reflexivity.
Qed.

(** The [switch] never assigns the configuration arrays, the store, the
    motor channels or the magnitude last written. *)
Lemma state_machine_same_config (fuel : nat) (e : Env) (s s' : Ctrl) :
  state_machine fuel e s = Some s' -> same_config s s'.
Proof.
  unfold state_machine.
  destruct (program_state s =? STATE_SLEEPING).
  { intros [= <-]. unfold same_config, case_sleeping. open_fields s.
    split_tests; repeat split; reflexivity. }
  destruct (program_state s =? STATE_STARTUP).
  { unfold case_startup.
    destruct (recovery_loop fuel (resample e) 0 (startup_first e s)) as [s1|] eqn:Hl;
      [|discriminate].
    intros [= <-]. apply recovery_loop_same_config in Hl.
    eapply same_config_trans; [|eapply same_config_trans; [exact Hl|]].
    - unfold same_config, startup_first. clear Hl. open_fields s.
      split_tests; repeat split; reflexivity.
    - unfold same_config, startup_exit. clear Hl. open_fields s1.
      repeat split; reflexivity. }
  destruct (program_state s =? STATE_WAITING).
  { intros [= <-]. unfold same_config, case_waiting. open_fields s.
    split_tests; repeat split; reflexivity. }
  destruct (program_state s =? STATE_ACCEL).
  { intros [= <-]. unfold same_config, case_accel, stop_hit. open_fields s.
    split_tests; repeat split; reflexivity. }
  destruct (program_state s =? STATE_RUNNING).
  { intros [= <-]. unfold same_config, case_running, stop_hit, complement_direction.
    open_fields s. split_tests; repeat split; reflexivity. }
  destruct (program_state s =? STATE_DEACCEL).
  { intros [= <-].
    unfold same_config, case_deaccel, deaccel_ramp, stop_hit, center_stop_hit.
    open_fields s. split_tests; repeat split; reflexivity. }
  destruct (program_state s =? STATE_SLOW).
  { intros [= <-].
    unfold same_config, case_slow, stop_hit, center_stop_hit, complement_direction.
    open_fields s. split_tests; repeat split; reflexivity. }
  destruct (program_state s =? STATE_STOPPED).
  { intros [= <-]. unfold same_config, case_stopped. open_fields s.
    split_tests; repeat split; reflexivity. }
  intros [= <-]. apply same_config_refl.
Qed.

Lemma int_of_speed_range (q : Z) :
  speed_of_int 0 <= q <= speed_of_int MAX_SPEED -> 0 <= int_of_speed q <= MAX_SPEED.
Proof.
  unfold speed_of_int, int_of_speed, MAX_SPEED. intros H.
  rewrite Z.quot_div_nonneg by lia. split.
  - apply Z.div_pos; lia.
  - apply Z.div_le_upper_bound; lia.
Qed.

Lemma menu_pwm (k : MenuKey) (s : Ctrl) :
  pwm_left (menu k s) = pwm_left s /\ pwm_right (menu k s) = pwm_right s
  /\ prev_motor_speed (menu k s) = prev_motor_speed s.
Proof.
  destruct k; unfold menu, editStations, setOnOffTime, ee_put; open_fields s;
    repeat split; reflexivity.
Qed.

Lemma motor_output_pwm_consistent (s : Ctrl) :
  speed_in_range s -> pwm_consistent s -> pwm_consistent (fst (motor_output s)).
Proof.
  intros Hsp Hpwm. pose proof (int_of_speed_range (motor_speed s) Hsp) as Hv.
  revert Hpwm Hv. unfold pwm_consistent, motor_output, analogWrite, speed_changed.
  clear Hsp. open_fields s. intros.
  split_tests; cbn [fst]; fields; try discriminate; intuition lia.
Qed.

(** X13. In every reachable state at most one of the two motor channels
    carries a non-zero duty, that duty is the magnitude last written, and
    it lies between 0 and [MAX_SPEED]. *)
Theorem reachable_pwm_consistent (s : Ctrl) :
  reachable s ->
  (pwm_left s = 0 \/ pwm_right s = 0)
  /\ pwm_left s + pwm_right s = prev_motor_speed s
  /\ 0 <= prev_motor_speed s <= MAX_SPEED.
Proof.
  induction 1 as [ee now | fuel e s s' w Hreach IH Hloop].
  - unfold setup, initEeprom, ee_put, power_on. fields.
    split_tests; fields; unfold MAX_SPEED; lia.
  - apply loop_inv in Hloop. destruct Hloop as (s1 & Hsm & -> & _).
    apply motor_output_pwm_consistent.
    + eapply state_machine_speed_in_range; [|exact Hsm].
      apply menu_speed_in_range. apply reachable_speed_in_range. exact Hreach.
    + apply state_machine_same_config in Hsm.
      destruct Hsm as (_ & _ & _ & _ & Hl & Hr & Hp).
      destruct (menu_pwm (key e) s) as (Hl' & Hr' & Hp').
      unfold pwm_consistent. rewrite Hl, Hr, Hp, Hl', Hr', Hp'. exact IH.
Qed.

(** X13 at a reachable state. *)
Lemma reachable_pwm_consistent_witness :
  (pwm_left st_departed = 0 \/ pwm_right st_departed = 0)
  /\ pwm_left st_departed + pwm_right st_departed = prev_motor_speed st_departed
  /\ 0 <= prev_motor_speed st_departed <= MAX_SPEED.
Proof. apply (reachable_pwm_consistent st_departed). apply st_departed_reachable. Defined.

(** ** The stored configuration *)

Lemma ee_get_word_put_same (ee : gmap Z EeObj) (a w : Z) :
  ee_get_word (<[a := EeWord w]> ee) a = w.
Proof. unfold ee_get_word. now rewrite lookup_insert_eq. Qed.

Lemma ee_get_word_put_other (ee : gmap Z EeObj) (a b : Z) (o : EeObj) :
  a <> b -> ee_get_word (<[a := o]> ee) b = ee_get_word ee b.
Proof. intros H. unfold ee_get_word. now rewrite lookup_insert_ne. Qed.

Lemma ee_get_ints_put_same (ee : gmap Z EeObj) (a : Z) (l : list Z) (n : nat) :
  ee_get_ints (<[a := EeInts l]> ee) a n = l.
Proof. unfold ee_get_ints. now rewrite lookup_insert_eq. Qed.

Lemma ee_get_ints_put_other (ee : gmap Z EeObj) (a b : Z) (o : EeObj) (n : nat) :
  a <> b -> ee_get_ints (<[a := o]> ee) b n = ee_get_ints ee b n.
Proof. intros H. unfold ee_get_ints. now rewrite lookup_insert_ne. Qed.

Lemma initEeprom_persisted (s : Ctrl) : persisted (initEeprom s).
Proof.
  unfold persisted, initEeprom, ee_put. open_fields s. store_addresses.
  repeat split.
  - rewrite !ee_get_word_put_other by lia. apply ee_get_word_put_same.
  - rewrite ee_get_ints_put_other by lia. apply ee_get_ints_put_same.
  - apply ee_get_ints_put_same.
Qed.

Lemma setup_persisted (now : Z) (ee : gmap Z EeObj) : persisted (setup now (power_on ee)).
Proof.
  unfold setup.
  destruct (negb (magicNumber
                    (set_magicNumber
                       (ee_get_word (eeprom (set_displayMillis now (power_on ee)))
                          EE_MAGIC_ADDRESS)
                       (set_displayMillis now (power_on ee))) =? EE_MAGIC_NUMBER)) eqn:E.
  - apply initEeprom_persisted.
  - apply negb_false_iff, Z.eqb_eq in E. revert E.
    unfold persisted, power_on. fields. intros E. repeat split. exact E.
Qed.

Lemma menu_persisted (k : MenuKey) (s : Ctrl) : persisted s -> persisted (menu k s).
Proof.
  unfold persisted. destruct k; unfold menu, editStations, setOnOffTime, ee_put;
    open_fields s; store_addresses; intros (Hm & Hw & Ho); repeat split;
    rewrite ?ee_get_word_put_other, ?ee_get_ints_put_same by lia;
    rewrite ?ee_get_ints_put_other by lia; try assumption; try reflexivity.
Qed.

Lemma motor_output_config (s : Ctrl) :
  station_wait_times (fst (motor_output s)) = station_wait_times s
  /\ on_off_times (fst (motor_output s)) = on_off_times s
  /\ eeprom (fst (motor_output s)) = eeprom s.
Proof.
  unfold motor_output, analogWrite, speed_changed. open_fields s.
  split_tests; cbn [fst]; fields; repeat split; reflexivity.
Qed.

Lemma reachable_persisted (s : Ctrl) : reachable s -> persisted s.
Proof.
  induction 1 as [ee now | fuel e s s' w _ IH Hloop].
  - apply setup_persisted.
  - apply loop_inv in Hloop. destruct Hloop as (s1 & Hsm & -> & _).
    apply state_machine_same_config in Hsm.
    destruct Hsm as (Hw & Ho & He & _).
    destruct (motor_output_config s1) as (Hw' & Ho' & He').
    apply (menu_persisted (key e)) in IH.
    unfold persisted in *. rewrite He', Hw', Ho', He, Hw, Ho. exact IH.
Qed.

(** X14. Whatever has happened since power-on (sentinel repair, menu edits,
    any number of loop iterations), a restart from the store as it is now
    comes up with the same station wait times and the same schedule as
    are in use now. *)
Theorem config_survives_restart (s : Ctrl) (now : Z) :
  reachable s ->
  station_wait_times (setup now (power_on (eeprom s))) = station_wait_times s
  /\ on_off_times (setup now (power_on (eeprom s))) = on_off_times s.
Proof.
  intros Hr. destruct (reachable_persisted s Hr) as (Hm & Hw & Ho).
  unfold setup.
  replace (magicNumber
             (set_magicNumber
                (ee_get_word (eeprom (set_displayMillis now (power_on (eeprom s))))
                   EE_MAGIC_ADDRESS)
                (set_displayMillis now (power_on (eeprom s)))))
    with (ee_get_word (eeprom s) EE_MAGIC_ADDRESS) by reflexivity.
  rewrite Hm, Z.eqb_refl. cbn [negb]. unfold power_on. fields.
  split; assumption.
Qed.

(** X14 at a reachable state. *)
Lemma config_survives_restart_witness :
  station_wait_times (setup 0 (power_on (eeprom st_edited))) = [10; 25; 0]
  /\ on_off_times (setup 0 (power_on (eeprom st_edited))) = [6; 0; 22; 0; 1].
Proof.
  apply (config_survives_restart st_edited 0).
  apply after_loop_reachable; [|vm_compute; discriminate].
  apply st_departed_reachable.
Defined.

(** ** The menu editors *)

Lemma editStations_step (slot t : Z) (edits : list (Z * Z)) (s : Ctrl) :
  0 <= slot < NUM_STOPS -> 0 <= t ->
  editStations edits
    (set_station_wait_times (aset (station_wait_times s) (Z.to_nat slot) t) s)
  = editStations ((slot, t) :: edits) s.
Proof.
  intros Hs Ht. unfold editStations, ee_put. open_fields s. cbn [apply_edits].
  destruct (Z.geb_spec slot 0); [|lia].
  destruct (Z.ltb_spec slot NUM_STOPS); [|lia].
  destruct (Z.geb_spec t 0); [|lia].
  reflexivity.
Qed.

Lemma edit_session_refines (fuel : nat) :
  forall (ph : EditPhase) (ints keys : list Z) (s s' : Ctrl),
    edit_session fuel ph ints keys s = Some s' ->
    match ph with
    | AskTime slot =>
        0 <= slot < NUM_STOPS ->
        exists t edits, 0 <= t /\ Forall valid_edit edits
                        /\ s' = editStations ((slot, t) :: edits) s
    | _ => exists edits, Forall valid_edit edits /\ s' = editStations edits s
    end.
Proof.
  induction fuel as [|fuel IH]; intros ph ints keys s s' H; [discriminate|].
  cbn [edit_session] in H. destruct ph as [| |slot|].
  - destruct keys as [|c keys]; [discriminate|].
    destruct (wrap8 c =? 120); apply IH in H; exact H.
  - destruct ints as [|v ints]; [discriminate|].
    destruct ((v >=? 0) && (v <? NUM_STOPS)) eqn:E.
    + apply IH in H. apply andb_prop in E. destruct E as [E1 E2].
      rewrite Z.geb_leb in E1. apply Z.leb_le in E1. apply Z.ltb_lt in E2.
      destruct H as (t & edits & Ht & Hall & ->); [lia|].
      exists ((v, t) :: edits). split; [|reflexivity].
      constructor; [|exact Hall]. unfold valid_edit. cbn. lia.
    + apply IH in H. exact H.
  - intros Hslot. destruct ints as [|v ints]; [discriminate|].
    destruct (Z.geb_spec v 0) as [Hv|Hv].
    + apply IH in H. destruct H as (edits & Hall & ->).
      exists v, edits. split; [lia|]. split; [exact Hall|].
      apply editStations_step; lia.
    + apply IH in H. apply H. exact Hslot.
  - destruct keys as [|c keys]; [discriminate|].
    destruct (wrap8 c =? 110).
    + injection H as <-. exists []. split; [exact (List.Forall_nil _)|].
      unfold editStations, ee_put. open_fields s. reflexivity.
    + destruct (wrap8 c =? 121); apply IH in H; exact H.
Qed.

Lemma apply_edits_keeps (edits : list (Z * Z)) :
  forall swt : list Z,
    length (apply_edits edits swt) = length swt
    /\ (Forall (fun t => 0 <= t) swt -> Forall (fun t => 0 <= t) (apply_edits edits swt)).
Proof.
  induction edits as [|[slot t] edits IH]; intros swt; cbn [apply_edits].
  - split; [reflexivity|trivial].
  - destruct ((slot >=? 0) && (slot <? NUM_STOPS) && (t >=? 0)) eqn:E; [|apply IH].
    destruct (IH (aset swt (Z.to_nat slot) t)) as [Hlen Hall]. unfold aset in *.
    rewrite length_insert in Hlen. split; [exact Hlen|].
    intros Hnn. apply Hall.
    apply andb_prop in E. destruct E as [_ E]. rewrite Z.geb_leb in E. apply Z.leb_le in E.
    apply Forall_insert; assumption.
Qed.

(** Whenever the station editor returns, the controller is as if some
    valid entries had been assigned in order, the array has kept its
    length and has no negative entry if it had none, and the stored copy
    equals the array in RAM. *)
Lemma editStations_session_returns (ints keys : list Z) (s s' : Ctrl) :
  editStations_session ints keys s = Some s' ->
  (exists edits, Forall valid_edit edits /\ s' = editStations edits s)
  /\ length (station_wait_times s') = length (station_wait_times s)
  /\ (Forall (fun t => 0 <= t) (station_wait_times s) ->
      Forall (fun t => 0 <= t) (station_wait_times s'))
  /\ ee_get_ints (eeprom s') eeprom_addr (Z.to_nat NUM_STOPS) = station_wait_times s'.
Proof.
  intros H. unfold editStations_session in H.
  apply edit_session_refines in H. destruct H as (edits & Hall & ->).
  split; [exists edits; split; [exact Hall|reflexivity]|].
  destruct (apply_edits_keeps edits (station_wait_times s)) as [Hlen Hnn].
  unfold editStations, ee_put. open_fields s.
  repeat split; try assumption. apply ee_get_ints_put_same.
Qed.

(** A session that ends with some fuel ends with any fuel above the
    number of inputs. *)
Lemma edit_session_enough_fuel (fuel : nat) :
  forall (ph : EditPhase) (ints keys : list Z) (s s' : Ctrl) (fuel' : nat),
    edit_session fuel ph ints keys s = Some s' ->
    (length ints + length keys < fuel')%nat ->
    edit_session fuel' ph ints keys s = Some s'.
Proof.
  induction fuel as [|fuel IH]; intros ph ints keys s s' fuel' H Hlen; [discriminate|].
  destruct fuel' as [|fuel']; [lia|].
  cbn [edit_session] in *. destruct ph as [| |slot|].
  - destruct keys as [|c keys]; [discriminate|]. cbn [length] in Hlen.
    destruct (wrap8 c =? 120); (eapply IH; [exact H|lia]).
  - destruct ints as [|v ints]; [discriminate|]. cbn [length] in Hlen.
    destruct ((v >=? 0) && (v <? NUM_STOPS)); (eapply IH; [exact H|lia]).
  - destruct ints as [|v ints]; [discriminate|]. cbn [length] in Hlen.
    destruct (v >=? 0); (eapply IH; [exact H|lia]).
  - destruct keys as [|c keys]; [discriminate|]. cbn [length] in Hlen.
    destruct (wrap8 c =? 110); [exact H|].
    destruct (wrap8 c =? 121); (eapply IH; [exact H|lia]).
Qed.

Lemma edit_session_show (pre : list Z) :
  forall (fuel : nat) (ints keys : list Z) (s : Ctrl),
    Forall (fun c => wrap8 c <> 120) pre ->
    edit_session (length pre + S fuel) ShowWait ints (pre ++ 120 :: keys) s
    = edit_session fuel AskSlot ints keys s.
Proof.
  induction pre as [|c pre IH]; intros fuel ints keys s Hpre.
  - reflexivity.
  - inversion Hpre as [|c' pre' Hc Hrest]; subst.
    cbn [length Nat.add app edit_session].
    destruct (Z.eqb_spec (wrap8 c) 120); [contradiction|]. apply IH. exact Hrest.
Qed.

Lemma edit_session_slot (bad : list Z) :
  forall (fuel : nat) (slot : Z) (ints keys : list Z) (s : Ctrl),
    Forall (fun v => ~ 0 <= v < NUM_STOPS) bad ->
    0 <= slot < NUM_STOPS ->
    edit_session (length bad + S fuel) AskSlot (bad ++ slot :: ints) keys s
    = edit_session fuel (AskTime slot) ints keys s.
Proof.
  induction bad as [|v bad IH]; intros fuel slot ints keys s Hbad Hslot.
  - cbn [length Nat.add app edit_session].
    destruct (Z.geb_spec slot 0); [|lia]. destruct (Z.ltb_spec slot NUM_STOPS); [|lia].
    reflexivity.
  - inversion Hbad as [|v' bad' Hv Hrest]; subst.
    cbn [length Nat.add app edit_session].
    destruct (Z.geb_spec v 0); destruct (Z.ltb_spec v NUM_STOPS); cbn [andb];
      try (apply IH; assumption).
    exfalso. apply Hv. lia.
Qed.

Lemma edit_session_time (bad : list Z) :
  forall (fuel : nat) (slot t : Z) (ints keys : list Z) (s : Ctrl),
    Forall (fun v => v < 0) bad ->
    0 <= t ->
    edit_session (length bad + S fuel) (AskTime slot) (bad ++ t :: ints) keys s
    = edit_session fuel AskAgain ints keys
        (set_station_wait_times (aset (station_wait_times s) (Z.to_nat slot) t) s).
Proof.
  induction bad as [|v bad IH]; intros fuel slot t ints keys s Hbad Ht.
  - cbn [length Nat.add app edit_session].
    destruct (Z.geb_spec t 0); [|lia]. reflexivity.
  - inversion Hbad as [|v' bad' Hv Hrest]; subst.
    cbn [length Nat.add app edit_session].
    destruct (Z.geb_spec v 0); [lia|]. apply IH; assumption.
Qed.

Lemma edit_session_again (junk : list Z) :
  forall (fuel : nat) (ints keys : list Z) (s : Ctrl),
    Forall (fun c => wrap8 c <> 110 /\ wrap8 c <> 121) junk ->
    edit_session (length junk + S fuel) AskAgain ints (junk ++ 121 :: keys) s
    = edit_session fuel AskSlot ints keys s
    /\ edit_session (length junk + S fuel) AskAgain ints (junk ++ 110 :: keys) s
       = Some (ee_put eeprom_addr (EeInts (station_wait_times s)) s).
Proof.
  induction junk as [|c junk IH]; intros fuel ints keys s Hjunk.
  - split; reflexivity.
  - inversion Hjunk as [|c' junk' [Hn Hy] Hrest]; subst.
    cbn [length Nat.add app edit_session].
    destruct (Z.eqb_spec (wrap8 c) 110); [contradiction|].
    destruct (Z.eqb_spec (wrap8 c) 121); [contradiction|].
    apply IH. exact Hrest.
Qed.

Lemma editStations_nil (s : Ctrl) :
  ee_put eeprom_addr (EeInts (station_wait_times s)) s = editStations [] s.
Proof. unfold editStations, ee_put. open_fields s. reflexivity. Qed.

Lemma edit_session_rounds (rounds : list EditRound) :
  forall (more_ints more_keys : list Z) (s : Ctrl),
    Forall round_ok rounds -> rounds <> [] ->
    exists fuel,
      edit_session fuel AskSlot (script_ints rounds ++ more_ints)
        (script_keys rounds ++ more_keys) s
      = Some (editStations (map round_entry rounds) s).
Proof.
  induction rounds as [|r rest IH]; intros more_ints more_keys s Hok Hne;
    [contradiction|].
  inversion Hok as [|r' rest' (Hbs & Hslot & Hbt & Htime & Hjunk) Hrest]; subst.
  cbn [script_ints script_keys map].
  rewrite <- !app_assoc. cbn [app]. rewrite <- !app_assoc. cbn [app].
  destruct rest as [|r2 rest].
  - exists (length (bad_slots r) + S (length (bad_times r) + S (length (junk_keys r) + 1)))%nat.
    rewrite edit_session_slot by assumption.
    rewrite edit_session_time by assumption.
    rewrite (proj2 (edit_session_again (junk_keys r) 0 _ _ _ Hjunk)).
    cbn [map]. rewrite editStations_nil.
    f_equal. apply editStations_step; assumption.
  - destruct (IH more_ints more_keys
                (set_station_wait_times
                   (aset (station_wait_times s) (Z.to_nat (r_slot r)) (r_time r)) s))
      as [fuel Hrun]; [exact Hrest|discriminate|].
    exists (length (bad_slots r)
            + S (length (bad_times r) + S (length (junk_keys r) + S fuel)))%nat.
    rewrite edit_session_slot by assumption.
    rewrite edit_session_time by assumption.
    rewrite (proj1 (edit_session_again (junk_keys r) fuel _ _ _ Hjunk)).
    rewrite Hrun. f_equal. apply editStations_step; assumption.
Qed.

(** X15. When the operator leaves the listing with "x" and then drives
    one or more rounds of the station editor (refused slot numbers, an
    accepted slot, refused wait times, an accepted wait time, "y" after
    every round but the last and "n" after the last), [editStations]
    returns, and the controller is exactly as if the accepted
    (slot, wait time) entries of the rounds had been assigned in order
    and the array written to the store.  And whenever [editStations]
    returns at all, the array has kept its length, has no negative entry
    if it had none, and the stored copy equals the array in RAM. *)
Theorem editStations_session_entries :
  (forall (pre : list Z) (rounds : list EditRound) (more_ints more_keys : list Z)
          (s : Ctrl),
      Forall (fun c => wrap8 c <> 120) pre ->
      Forall round_ok rounds ->
      rounds <> [] ->
      editStations_session (script_ints rounds ++ more_ints)
        (pre ++ 120 :: script_keys rounds ++ more_keys) s
      = Some (editStations (map round_entry rounds) s))
  /\ (forall (ints keys : list Z) (s s' : Ctrl),
        editStations_session ints keys s = Some s' ->
        length (station_wait_times s') = length (station_wait_times s)
        /\ (Forall (fun t => 0 <= t) (station_wait_times s) ->
            Forall (fun t => 0 <= t) (station_wait_times s'))
        /\ ee_get_ints (eeprom s') eeprom_addr (Z.to_nat NUM_STOPS)
           = station_wait_times s').
Proof.
  split.
  - intros pre rounds more_ints more_keys s Hpre Hok Hne.
    destruct (edit_session_rounds rounds more_ints more_keys s Hok Hne) as [fuel Hrun].
    rewrite <- (edit_session_show pre fuel _ _ s Hpre) in Hrun.
    unfold editStations_session.
    eapply edit_session_enough_fuel; [exact Hrun|lia].
  - intros ints keys s s' H.
    apply editStations_session_returns in H. apply H.
Qed.

(** X15, the operator leaves the listing with "x", enters slot 7
    (refused), slot 1, wait time 25, and answers "n": the wait time of
    station 1 becomes 25. *)
Lemma editStations_session_entries_witness :
  editStations_session [7; 1; 25] [120; 110] st_boot
  = Some (editStations [(1, 25)] st_boot)
  /\ station_wait_times (editStations [(1, 25)] st_boot) = [10; 25; 0].
Proof.
  split; [|reflexivity].
  apply (proj1 editStations_session_entries [] [mkRound [7] 1 [] 25 []] [] [] st_boot).
  - constructor.
  - repeat constructor; cbn; try lia. intros H. unfold NUM_STOPS in H. lia.
  - discriminate.
Defined.

Lemma ask_enable_result (ints : list Z) :
  forall (oot oot' : list Z),
    length oot = 5%nat ->
    ask_enable ints oot = Some oot' ->
    exists en : bool, oot' = aset oot 4 (int_of_bool en).
Proof.
  induction ints as [|v ints IH]; intros oot oot' Hlen H; [discriminate|].
  cbn [ask_enable] in H.
  assert (Hget : aget (aset oot 4 v) 4 = v).
  { destruct oot as [|x0 [|x1 [|x2 [|x3 [|x4 [|]]]]]]; try discriminate. reflexivity. }
  rewrite Hget in H.
  destruct (Z.ltb_spec v 0) as [Hneg|Hnn]; cbn [orb] in H.
  - apply IH in H; [|unfold aset; now rewrite length_insert].
    destruct H as [en ->]. exists en. unfold aset.
    destruct oot as [|x0 [|x1 [|x2 [|x3 [|x4 [|]]]]]]; try discriminate. reflexivity.
  - destruct (Z.gtb_spec v 1) as [Hbig|Hsmall].
    + apply IH in H; [|unfold aset; now rewrite length_insert].
      destruct H as [en ->]. exists en. unfold aset.
      destruct oot as [|x0 [|x1 [|x2 [|x3 [|x4 [|]]]]]]; try discriminate. reflexivity.
    + injection H as <-. assert (v = 0 \/ v = 1) as [-> | ->] by lia.
      * exists false. reflexivity.
      * exists true. reflexivity.
Qed.

(** X16. When the schedule editor returns, the four times are the first four
    numbers entered, as entered (no range is checked), the enable flag is
    0 or 1, and the stored copy equals the schedule in RAM. *)
Theorem setOnOffTime_session_returns (ints keys : list Z) (s s' : Ctrl) :
  length (on_off_times s) = 5%nat ->
  setOnOffTime_session ints keys s = Some s' ->
  (exists v0 v1 v2 v3 rest en,
      ints = v0 :: v1 :: v2 :: v3 :: rest
      /\ s' = setOnOffTime v0 v1 v2 v3 en s)
  /\ (aget (on_off_times s') 4 = 0 \/ aget (on_off_times s') 4 = 1)
  /\ ee_get_ints (eeprom s') eeprom_addr2 5 = on_off_times s'.
Proof.
  intros Hlen H. unfold setOnOffTime_session in H.
  destruct ints as [|v0 [|v1 [|v2 [|v3 rest]]]]; try discriminate.
  destruct (ask_enable rest _) as [oot'|] eqn:Hen; [|discriminate].
  destruct (wait_key 27 keys); [|discriminate].
  injection H as <-.
  apply ask_enable_result in Hen; [|unfold aset; now rewrite !length_insert].
  destruct Hen as [en ->].
  assert (Hoot : aset (aset (aset (aset (aset (on_off_times s) 0 v0) 1 v1) 2 v2) 3 v3) 4
                   (int_of_bool en) = [v0; v1; v2; v3; int_of_bool en]).
  { destruct (on_off_times s) as [|x0 [|x1 [|x2 [|x3 [|x4 [|]]]]]]; try discriminate.
    reflexivity. }
  rewrite Hoot. clear Hoot Hlen.
  unfold setOnOffTime, ee_put. open_fields s.
  split; [exists v0, v1, v2, v3, rest, en; split; reflexivity|].
  split.
  - destruct en; [right|left]; reflexivity.
  - apply ee_get_ints_put_same.
Qed.

(** X16, on 5:30, off 23:15; the flag 7 is refused, 1 is taken; ESC ends. *)
Lemma setOnOffTime_session_returns_witness :
  on_off_times
    (default st_boot (setOnOffTime_session [5; 30; 23; 15; 7; 1] [27] st_boot))
  = [5; 30; 23; 15; 1]
  /\ ee_get_ints
       (eeprom (default st_boot (setOnOffTime_session [5; 30; 23; 15; 7; 1] [27] st_boot)))
       eeprom_addr2 5
     = on_off_times
         (default st_boot (setOnOffTime_session [5; 30; 23; 15; 7; 1] [27] st_boot)).
Proof.
  split; [reflexivity|].
  apply (setOnOffTime_session_returns [5; 30; 23; 15; 7; 1] [27] st_boot);
    reflexivity.
Defined.

(** ** Start-up, sleep and the timers *)

Lemma recovery_body_again (p q : Pins) (s : Ctrl) :
  check_stop q = -1 -> recovery_body p (recovery_body q s) = recovery_body p s.
Proof.
  intros Hq. unfold recovery_body. open_fields s. rewrite Hq.
  change (-1 =? 0) with false. change (-1 >=? 1) with false. fields. reflexivity.
Qed.

Lemma recovery_loop_found (samples : nat -> Pins) (m : nat) :
  forall (k : nat) (s : Ctrl),
    (forall j, (k <= j < k + m)%nat -> check_stop (samples j) = -1) ->
    0 <= check_stop (samples (k + m)%nat) ->
    current_station s = -1 ->
    recovery_loop (S m) samples k s = Some (recovery_body (samples (k + m)%nat) s).
Proof.
  induction m as [|m IH]; intros k s Hno Hyes Hcur.
  - replace (k + 0)%nat with k in * by lia.
    cbn [recovery_loop]. rewrite Hcur, Z.eqb_refl.
    assert (Hc : current_station (recovery_body (samples k) s) = check_stop (samples k)).
    { unfold recovery_body. clear Hcur. open_fields s.
      split_tests; bool_facts; close_branch. }
    rewrite Hc. destruct (Z.eqb_spec (check_stop (samples k)) (-1)); [lia|reflexivity].
  - assert (Hk : check_stop (samples k) = -1) by (apply Hno; lia).
    change (recovery_loop (S (S m)) samples k s)
      with (if current_station s =? -1
            then recovery_loop (S m) samples (S k) (recovery_body (samples k) s)
            else Some s).
    rewrite Hcur, Z.eqb_refl.
    rewrite IH.
    + replace (S k + m)%nat with (k + S m)%nat by lia.
      now rewrite recovery_body_again.
    + intros j Hj. apply Hno. lia.
    + replace (S k + m)%nat with (k + S m)%nat by lia. exact Hyes.
    + apply recovery_body_not_found. exact Hk.
Qed.

(** X17. When the first look finds no stop sensor and pass [n] of the
    recovery loop is the first to find one, the case returns with that
    station as the current one, in [STATE_ACCEL], heading right from
    station 0 and left from stations 1 and 2, starting at [MIN_SPEED]
    from stations 1 and 2 and at the speed it had from station 0. *)
Theorem startup_recovery_found (n : nat) (e : Env) (s : Ctrl) :
  check_stop (pins e) = -1 ->
  (forall k, (k < n)%nat -> check_stop (resample e k) = -1) ->
  0 <= check_stop (resample e n) ->
  exists s',
    case_startup (S n) e s = Some s'
    /\ program_state s' = STATE_ACCEL
    /\ current_station s' = check_stop (resample e n)
    /\ direction_left s' = negb (check_stop (resample e n) =? 0)
    /\ motor_speed s'
       = (if check_stop (resample e n) =? 0 then motor_speed s
          else speed_of_int MIN_SPEED)
    /\ previousMillis s' = millis e.
Proof.
  intros Hfirst Hall Hfound. unfold case_startup.
  destruct (startup_first_not_found e s Hfirst) as [_ Hcs].
  rewrite (recovery_loop_found (resample e) n 0 (startup_first e s));
    try assumption; [|intros j Hj; apply Hall; lia].
  eexists. split; [reflexivity|].
  cbn [Nat.add]. clear Hcs Hall.
  unfold startup_exit, recovery_body, startup_first. open_fields s. rewrite Hfirst.
  change (-1 =? 0) with false. change (-1 >=? 1) with false.
  change (-1 =? -1) with true. fields.
  split_tests; bool_facts; close_branch.
Qed.

(** X17, the left stop sensor appears on the second pass. *)
Lemma startup_recovery_found_witness :
  exists s',
    case_startup 2 env_found_late st_boot = Some s'
    /\ program_state s' = STATE_ACCEL
    /\ current_station s' = 0
    /\ direction_left s' = false.
Proof.
  destruct (startup_recovery_found 1 env_found_late st_boot)
    as (s' & H1 & H2 & H3 & H4 & _).
  - reflexivity.
  - intros k Hk. assert (k = 0%nat) by lia. subst k. reflexivity.
  - vm_compute. discriminate.
  - exists s'. repeat split; assumption.
Defined.

(** X18. In [STATE_SLEEPING] with no key pressed an iteration of [loop]
    always completes, wakes the controller into [STATE_STARTUP] exactly
    when the schedule says operating, and leaves speed, direction,
    station and both motor channels as they were unless the speed differs
    from the magnitude last written. *)
Theorem sleeping_loop (fuel : nat) (e : Env) (s : Ctrl) :
  program_state s = STATE_SLEEPING ->
  key e = KeyNone ->
  exists s' w,
    loop fuel e s = Some (s', w)
    /\ program_state s'
       = (if check_schedule (on_off_times s) (clock e)
          then STATE_STARTUP else STATE_SLEEPING)
    /\ motor_speed s' = motor_speed s
    /\ direction_left s' = direction_left s
    /\ current_station s' = current_station s
    /\ (motor_speed s = speed_of_int (prev_motor_speed s) ->
        w = [] /\ pwm_left s' = pwm_left s /\ pwm_right s' = pwm_right s).
Proof.
  intros Hst Hkey. unfold loop. rewrite Hkey. cbn [menu].
  unfold state_machine. rewrite Hst. cbn [Z.eqb STATE_SLEEPING].
  exists (fst (motor_output (case_sleeping e s))), (snd (motor_output (case_sleeping e s))).
  split; [now rewrite <- surjective_pairing|].
  unfold motor_output, analogWrite, speed_changed, case_sleeping.
  open_fields s.
  split_tests; cbn [fst snd]; fields; bool_facts; close_branch.
Qed.

(** X18, asleep at night with the motor off: nothing is written. *)
Lemma sleeping_loop_witness :
  exists s' w,
    loop 0 env_night st_asleep = Some (s', w)
    /\ program_state s' = STATE_SLEEPING /\ w = [].
Proof.
  destruct (sleeping_loop 0 env_night st_asleep eq_refl eq_refl)
    as (s' & w & H1 & H2 & _ & _ & _ & H6).
  exists s', w. split; [exact H1|]. split; [exact H2|].
  apply H6. reflexivity.
Defined.

(** The difference [millis() - t] in [unsigned long] is the time that
    has passed also when the counter has wrapped around since [t]. *)
Lemma elapsed_rollover (t d : Z) :
  0 <= t < 4294967296 -> 0 <= d < 4294967296 ->
  elapsed (wrap32 (t + d)) t = d.
Proof.
  intros Ht Hd. unfold elapsed, wrap32.
  rewrite Zminus_mod_idemp_l. replace (t + d - t) with d by lia.
  apply Z.mod_small. exact Hd.
Qed.

(** X19. The run-time guard fires [RUN_MAX_TIMER] milliseconds after
    [STATE_RUNNING] was entered and not earlier when no sensor is
    asserted, also when the millisecond counter wraps around in
    between. *)
Theorem running_guard_rollover (e : Env) (s : Ctrl) (d : Z) :
  program_state s = STATE_RUNNING ->
  0 <= runMillis s < 4294967296 ->
  0 <= d < 4294967296 ->
  millis e = wrap32 (runMillis s + d) ->
  check_stop (pins e) = -1 -> check_slow (pins e) = -1 ->
  (program_state (case_running e s) = STATE_STOPPED <-> RUN_MAX_TIMER <= d)
  /\ (d < RUN_MAX_TIMER -> program_state (case_running e s) = STATE_RUNNING).
Proof.
  intros Hst Ht Hd Hnow Hstop Hslow.
  pose proof (elapsed_rollover (runMillis s) d Ht Hd) as Hel.
  rewrite <- Hnow in Hel. revert Hst Hel. clear Ht Hnow.
  unfold case_running, stop_hit, complement_direction. open_fields s.
  intros Hst Hel. rewrite Hel, Hstop, Hslow. unfold RUN_MAX_TIMER.
  split_tests; bool_facts; close_branch.
Qed.

(** X19, entered three seconds before the counter wraps, checked 30 seconds
    later. *)
Lemma running_guard_rollover_witness :
  program_state
    (case_running (env_at no_sensor 27000 0 noon)
       (set_runMillis 4294964296 st_running_left))
  = STATE_STOPPED.
Proof.
  apply (running_guard_rollover (env_at no_sensor 27000 0 noon)
           (set_runMillis 4294964296 st_running_left) 30000);
    try reflexivity; vm_compute; try split; try discriminate; reflexivity.
Defined.

(** ** The case theorems at concrete inputs *)

(** X4 at the right terminus at 12:00:00: the train departs. *)
Lemma waiting_departure_witness :
  program_state st_waiting_right = STATE_WAITING
  /\ program_state
       (case_waiting (env_at (pins_low [R_STOP_PIN]) 30 30000 noon) st_waiting_right)
     = STATE_ACCEL.
Proof.
  split; [reflexivity|].
  apply (waiting_departure (env_at (pins_low [R_STOP_PIN]) 30 30000 noon)
           st_waiting_right);
    [reflexivity | reflexivity |].
  right. split; [vm_compute; discriminate|]. split; [left; reflexivity|reflexivity].
Defined.

(** X5 one tick after the departure, still on the stop sensor of the
    station just left. *)
Lemma accel_ramp_step_witness :
  motor_speed (case_accel (env_at (pins_low [R_STOP_PIN]) 200 200000 noon) st_departed)
  = motor_speed st_departed + 1.
Proof.
  apply (accel_ramp_step (env_at (pins_low [R_STOP_PIN]) 200 200000 noon) st_departed);
    try reflexivity;
    [left; reflexivity | right; right; reflexivity | vm_compute; discriminate].
Defined.

(** X6 reaching the centre-right slow sensor while still accelerating. *)
Lemma accel_sensor_hit_witness :
  program_state
    (case_accel (env_at (pins_low [C_R_SLOW_PIN]) 200 200000 noon) st_departed)
  = STATE_DEACCEL
  /\ current_station
       (case_accel (env_at (pins_low [C_R_SLOW_PIN]) 200 200000 noon) st_departed)
     = 1.
Proof.
  destruct (accel_sensor_hit (env_at (pins_low [C_R_SLOW_PIN]) 200 200000 noon)
              st_departed) as [H _].
  destruct H as (H1 & H2 & _); [vm_compute; discriminate | vm_compute; discriminate |].
  split; [exact H1 | exact H2].
Defined.

(** X7 at full speed, one second in, over the centre-right slow sensor. *)
Lemma running_before_timeout_witness :
  program_state st_decel_middle = STATE_DEACCEL
  /\ current_station st_decel_middle = 1.
Proof.
  destruct (running_before_timeout
              (env_at (pins_low [C_R_SLOW_PIN]) 1000 1000000 noon) st_running_left)
    as (_ & _ & _ & H & _); [reflexivity | reflexivity |].
  destruct H as (H1 & H2 & _);
    [left; reflexivity | vm_compute; discriminate | vm_compute; discriminate |].
  split; [exact H1 | exact H2].
Defined.

(** X8 heading left over the middle stop sensor and the centre-left slow
    sensor at once. *)
Lemma deaccel_stop_conditions_witness :
  program_state
    (case_deaccel (env_at (pins_low [C_STOP_PIN; C_L_SLOW_PIN]) 1500 1500000 noon)
       st_decel_middle)
  = STATE_STOPPED.
Proof.
  apply (deaccel_stop_conditions
           (env_at (pins_low [C_STOP_PIN; C_L_SLOW_PIN]) 1500 1500000 noon)
           st_decel_middle); [reflexivity|].
  right. right. split; [reflexivity|]. left. split; reflexivity.
Defined.

(** X9 19000 microseconds after the deceleration towards the middle
    station began. *)
Lemma deaccel_ramp_step_witness :
  motor_speed (case_deaccel (env_at no_sensor 1019 1019000 noon) st_decel_middle)
  = motor_speed st_decel_middle - speed_of_int 1.
Proof.
  apply (deaccel_ramp_step (env_at no_sensor 1019 1019000 noon) st_decel_middle);
    try reflexivity; vm_compute; discriminate.
Defined.

(** X10 crawling left towards the middle station, over the centre-left
    slow sensor, one second into the crawl. *)
Lemma slow_step_witness :
  program_state (case_slow (env_at (pins_low [C_L_SLOW_PIN]) 3000 0 noon) st_slow_middle)
  = STATE_STOPPED.
Proof.
  destruct (slow_step (env_at (pins_low [C_L_SLOW_PIN]) 3000 0 noon) st_slow_middle)
    as (_ & _ & H); [reflexivity|].
  destruct H as (H & _); [reflexivity|].
  apply H. right. right. split; [reflexivity|]. left. split; reflexivity.
Defined.
